(** * ai-mouse-check: the server-side movement classifier and its attestation

    A shallow embedding of [server/detection.js] (version 1.4.0) and of the
    session routes of [server/index.js].

    JavaScript numbers are IEEE 754 binary64 values, so they are embedded
    as Rocq's primitive floats: every comparison, division by zero, NaN and
    infinity behaves here as it does in the engine.  Counters, lengths and
    array indices are integers below 2^53 in the source and are embedded as
    [Z]; they are converted to floats where the source divides or compares
    them with fractional constants.

    Reading a property of an array element that does not exist raises a
    [TypeError] in JavaScript; [crypto.timingSafeEqual] raises a
    [RangeError].  Both are embedded in a small completion monad. *)

From Stdlib Require Import Floats ZArith List Bool Lia String Ascii.
Import ListNotations.

Set Implicit Arguments.
Set Warnings "-inexact-float".

(* ================================================================== *)
(** ** Completions: a computation returns normally or throws *)

Inductive JsError : Type :=
| TypeError
| RangeError.

Inductive completion (A : Type) : Type :=
| Normal (a : A)
| Throw (e : JsError).

Arguments Normal {A} a.
Arguments Throw {A} e.

Definition bind {A B : Type} (m : completion A) (k : A -> completion B)
  : completion B :=
  match m with
  | Normal a => k a
  | Throw e => Throw e
  end.

Notation "'let*' x ':=' m 'in' k" := (bind m (fun x => k))
  (at level 10, x pattern, m at level 100, k at level 200).

(** [for (const i of idxs) s = body(s, i)] *)
Fixpoint for_each {S : Type} (idxs : list Z) (s : S)
         (body : S -> Z -> completion S) : completion S :=
  match idxs with
  | [] => Normal s
  | i :: rest => let* s' := body s i in for_each rest s' body
  end.

(** The indices visited by [for (let i = lo; i < hi; i += step)]. *)
Definition range_by (step lo hi : Z) : list Z :=
  map (fun k => (lo + step * Z.of_nat k)%Z)
      (seq 0 (Z.to_nat ((hi - lo + step - 1) / step))).

Definition range (lo hi : Z) : list Z := range_by 1 lo hi.

(* ================================================================== *)
(** ** Arrays *)

Definition len {A : Type} (l : list A) : Z := Z.of_nat (List.length l).

(** [arr[i]] followed by a property read: the element must exist. *)
Definition elem {A : Type} (l : list A) (i : Z) : completion A :=
  if (i <? 0)%Z then Throw TypeError
  else match nth_error l (Z.to_nat i) with
       | Some a => Normal a
       | None => Throw TypeError
       end.

(** [Array.prototype.slice]: negative indices count from the end, both
    ends are clamped to the array. *)
Definition rel_index (n k : Z) : Z :=
  if (k <? 0)%Z then Z.max (n + k) 0 else Z.min k n.

Definition slice {A : Type} (l : list A) (a b : Z) : list A :=
  let from := rel_index (len l) a in
  let to := rel_index (len l) b in
  firstn (Z.to_nat (to - from)) (skipn (Z.to_nat from) l).

Definition slice_from {A : Type} (l : list A) (a : Z) : list A :=
  slice l a (len l).

Definition count {A : Type} (f : A -> bool) (l : list A) : Z :=
  len (filter f l).

(** [arr.map((v, i) => f(v, i))], [arr.reduce((s, v, i) => f(s, v, i), s0)] *)
Fixpoint reduce_from {A S : Type} (f : S -> A -> Z -> S) (l : list A)
         (i : Z) (s : S) : S :=
  match l with
  | [] => s
  | a :: rest => reduce_from f rest (i + 1)%Z (f s a i)
  end.

Definition reduce {A S : Type} (f : S -> A -> S) (l : list A) (s : S) : S :=
  fold_left f l s.

Definition reduce_i {A S : Type} (f : S -> A -> Z -> S) (l : list A) (s : S)
  : S := reduce_from f l 0%Z s.

(* ================================================================== *)
(** ** Numbers *)

Notation "x >? y" := (PrimFloat.ltb y x)
  (at level 70, no associativity, only parsing) : float_scope.
Notation "x >=? y" := (PrimFloat.leb y x)
  (at level 70, no associativity, only parsing) : float_scope.

Module Js.

Local Open Scope float_scope.

(** An integer of the source as a number. *)
Definition ofZ (z : Z) : float :=
  if (z <? 0)%Z then - of_uint63 (Uint63.of_Z (- z))
  else of_uint63 (Uint63.of_Z z).

(** [!==] and [===] on numbers are the IEEE comparisons. *)
Definition strict_eq (a b : float) : bool := a =? b.
Definition strict_neq (a b : float) : bool := negb (a =? b).

(** [Boolean(x)]: zero and NaN are falsy. *)
Definition truthy (a : float) : bool := negb (a =? 0) && negb (is_nan a).

(** [v || d] where the property [v] may be absent. *)
Definition or_default (v : option float) (d : float) : float :=
  match v with
  | Some a => if truthy a then a else d
  | None => d
  end.

(** [Math.max(a, b)], [Math.min(a, b)]: NaN is contagious and +0 is
    larger than -0. *)
Definition max2 (a b : float) : float :=
  if is_nan a || is_nan b then nan
  else if a <? b then b
  else if b <? a then a
  else if get_sign a then b else a.

Definition min2 (a b : float) : float :=
  if is_nan a || is_nan b then nan
  else if a <? b then a
  else if b <? a then b
  else if get_sign a then a else b.

(** [Math.max(...arr)], [Math.min(...arr)] *)
Definition max (l : list float) : float := fold_left max2 l neg_infinity.
Definition min (l : list float) : float := fold_left min2 l infinity.

(** [Math.sign] *)
Definition sign (a : float) : float :=
  if a >? 0 then 1 else if a <? 0 then -1 else a.

Definition PI : float := 3.141592653589793.

(** [arr.reduce((a, b) => a + b, 0)] *)
Definition sum (l : list float) : float := fold_left PrimFloat.add l 0.

(** [arr[i]] used as a number: a missing element is [undefined], which
    every arithmetic operation and comparison treats as NaN. *)
Definition at_ (l : list float) (i : Z) : float :=
  if (i <? 0)%Z then nan else nth (Z.to_nat i) l nan.

(** [arr.indexOf(v)]: first index that is [===] to [v], or -1. *)
Fixpoint indexOf_from (l : list float) (v : float) (i : Z) : Z :=
  match l with
  | [] => (-1)%Z
  | a :: rest => if a =? v then i else indexOf_from rest v (i + 1)%Z
  end.

Definition indexOf (l : list float) (v : float) : Z := indexOf_from l v 0%Z.

End Js.

(** The functions of [Math] that ECMAScript leaves
    implementation-approximated.  ([Math.sqrt] and [Math.abs] are the IEEE
    operations.)  [x ** 2] is [pow x 2]. *)
Class MathLib : Type := {
  acos : float -> float;
  atan2 : float -> float -> float;
  log2 : float -> float;
  pow : float -> float -> float
}.

(* ================================================================== *)
(** ** Data model *)

(** A sample [{x, y, t}]. *)
Record Point : Set := mkPoint { x : float; y : float; t : float }.

(** The entries of [velocities], [accelerations] and [residuals]. *)
Record Velocity : Set := mkVelocity { vx : float; vy : float; v_t : float }.
Record Acceleration : Set :=
  mkAcceleration { ax : float; ay : float; a_t : float }.
Record Residual : Set := mkResidual { rx : float; ry : float }.

(** The [options] argument; a property that is absent is [None]. *)
Module Options.
Record t : Set := make {
  targetHitsRequired : option float;
  targetHits : option float
}.
Definition empty : t := make None None.
End Options.

Module Checks.
Record t : Set := make {
  speed : bool;
  curves : bool;
  jitter : bool;
  timing : bool;
  continuous : bool;
  notRobotic : bool
}.
End Checks.

Module Metrics.
Record t : Set := make {
  speedVariation : float;
  smoothRatio : float;
  reversalRatio : float;
  continuousRatio : float;
  pointsPerSecond : float;
  straightRatio : float;
  jerkSpikeRatio : float;
  accelSignChangeRate : float;
  curvatureChangeRate : float;
  timingCV : float;
  velocityPeaksPerSecond : float;
  pathEfficiency : float;
  noiseAutocorr : float;
  directionEntropy : float;
  reversalRate : float;
  hesitationRate : float;
  jerkAutocorr : float;
  linearAccelRatio : float;
  symmetryRatio : float;
  xyNoiseCorr : float;
  perfectStartRatio : float;
  smoothStartRatio : float;
  fidgetRatio : float;
  bezierSignalCount : Z;
  isBezierLike : bool;
  isTimingTooRegular : bool;
  triggeredSignals : list Z
}.
End Metrics.

(** The object returned by [analyzeMovement].  The early return carries
    only [verified], [reason], [checks], [checksPassed] and [aiDetected];
    the properties it leaves out are [None].  ([detectionConfig], a
    constant table that no computation reads, is left out.) *)
Module Result.
Record t : Set := make {
  verified : bool;
  reason : option string;
  checks : Checks.t;
  checksPassed : Z;
  totalChecks : option Z;
  aiDetected : bool;
  duration : option float;
  pointCount : option Z;
  detectionVersion : option string;
  metrics : option Metrics.t
}.
End Result.

Definition DETECTION_VERSION : string := "1.4.0".

(* ================================================================== *)
(** ** [analyzeMovement]: the signals

    Each definition below is one local variable (or one loop) of
    [analyzeMovement], in source order and under its source name. *)

Section Signals.

Context {M : MathLib}.

Local Open Scope float_scope.

Import Js.

(** *** 1. Speed variation *)

Definition speeds (points : list Point) : completion (list float) :=
  for_each (range 1 (len points)) [] (fun speeds i =>
    let* p := elem points i in
    let* q := elem points (i - 1) in
    let dx := x p - x q in
    let dy := y p - y q in
    let dt := t p - t q in
    let dist := sqrt (dx * dx + dy * dy) in
    Normal (if (dt >? 0) && (dist >? 0) then speeds ++ [dist / dt]
            else speeds)).

Definition speedCheck (speeds : list float) : bool :=
  if (len speeds >? 10)%Z then
    let thirds := (len speeds / 3)%Z in
    let avgFirst := sum (slice speeds 0 thirds) / ofZ thirds in
    let avgLast := sum (slice_from speeds (- thirds)) / ofZ thirds in
    let hasVariation := abs (avgFirst - avgLast) >? 0.05 in
    let hasOverall := Js.max speeds >? Js.min speeds * 1.5 in
    hasVariation || hasOverall
  else false.

(** *** 2. Path curvature *)

(** The loop that counts [(smoothCount, angleCount)]. *)
Definition smoothCounts (points : list Point) : completion (Z * Z) :=
  for_each (range 2 (len points)) (0, 0)%Z (fun '(smoothCount, angleCount) i =>
    let* p1 := elem points (i - 1) in
    let* p2 := elem points (i - 2) in
    let* p0 := elem points i in
    let v1x := x p1 - x p2 in
    let v1y := y p1 - y p2 in
    let v2x := x p0 - x p1 in
    let v2y := y p0 - y p1 in
    let mag1 := sqrt (v1x * v1x + v1y * v1y) in
    let mag2 := sqrt (v2x * v2x + v2y * v2y) in
    Normal
      (if (mag1 >? 0.5) && (mag2 >? 0.5) then
         let dot := v1x * v2x + v1y * v2y in
         let angle := acos (max2 (-1) (min2 1 (dot / (mag1 * mag2)))) in
         (if angle <? 0.3 then (smoothCount + 1)%Z else smoothCount,
          (angleCount + 1)%Z)
       else (smoothCount, angleCount))).

Definition smoothRatio (points : list Point) : completion float :=
  let* (smoothCount, angleCount) := smoothCounts points in
  Normal (ofZ smoothCount / ofZ (Z.max 1 angleCount)).

Definition curvesCheck (smoothRatio : float) : bool :=
  (smoothRatio >? 0.3) && (smoothRatio <? 0.95).

(** *** 3. Micro-movements *)

(** The loop state is [(reversals, lastDx, lastDy)]. *)
Definition reversals (points : list Point) : completion Z :=
  let* (reversals, _, _) :=
    for_each (range 1 (len points)) (0%Z, 0, 0)
      (fun '(reversals, lastDx, lastDy) i =>
        let* p := elem points i in
        let* q := elem points (i - 1) in
        let dx := x p - x q in
        let dy := y p - y q in
        let reversals :=
          if ((lastDx >? 0) && (dx <? 0)) || ((lastDx <? 0) && (dx >? 0))
          then (reversals + 1)%Z else reversals in
        let reversals :=
          if ((lastDy >? 0) && (dy <? 0)) || ((lastDy <? 0) && (dy >? 0))
          then (reversals + 1)%Z else reversals in
        Normal (reversals, dx, dy)) in
  Normal reversals.

Definition reversalRatio (points : list Point) : completion float :=
  let* reversals := reversals points in
  Normal (ofZ reversals / ofZ (len points)).

Definition jitterCheck (reversalRatio : float) : bool := reversalRatio <? 0.6.

(** *** 4. Timing patterns *)

Definition duration (points : list Point) : completion float :=
  let* last := elem points (len points - 1) in
  let* first := elem points 0 in
  Normal (t last - t first).

(** The loop that counts [(pauseCount, longPauseCount)]. *)
Definition pauseCounts (points : list Point) : completion (Z * Z) :=
  for_each (range 1 (len points)) (0, 0)%Z
    (fun '(pauseCount, longPauseCount) i =>
      let* p := elem points i in
      let* q := elem points (i - 1) in
      let dt := t p - t q in
      Normal (if dt >? 50 then (pauseCount + 1)%Z else pauseCount,
              if dt >? 150 then (longPauseCount + 1)%Z else longPauseCount)).

Definition timingCheck (points : list Point) (duration : float)
           (pauseCount longPauseCount : Z) : bool :=
  let pauseRatio := ofZ pauseCount / ofZ (len points) in
  (duration >? 300) && (pauseRatio <? 0.3)
  && (ofZ longPauseCount <? ofZ (len points) * 0.1).

(** *** 5. Continuous flow *)

Definition timeGaps (points : list Point) : completion (list float) :=
  for_each (range 1 (len points)) [] (fun timeGaps i =>
    let* p := elem points i in
    let* q := elem points (i - 1) in
    Normal (timeGaps ++ [t p - t q])).

Definition continuousRatio (timeGaps : list float) : float :=
  let smallGaps := count (fun g => g <? 30) timeGaps in
  ofZ smallGaps / ofZ (len timeGaps).

Definition pointsPerSecond (points : list Point) (duration : float) : float :=
  ofZ (len points) / (duration / 1000).

Definition continuousCheck (continuousRatio pointsPerSecond : float) : bool :=
  (continuousRatio >? 0.4) && (pointsPerSecond >? 15).

(** *** 6. Straight line detection *)

Definition segmentSize : Z := 20.

(** One window: does it count, and is it too straight?  [None] is the
    [continue] of a window shorter than 10px. *)
Definition straightSegment (segment : list Point)
  : completion (option bool) :=
  let* first := elem segment 0 in
  let x1 := x first in
  let y1 := y first in
  let* last := elem segment (len segment - 1) in
  let x2 := x last in
  let y2 := y last in
  let lineLen := sqrt (pow (x2 - x1) 2 + pow (y2 - y1) 2) in
  if lineLen <? 10 then Normal None
  else
    let* totalDeviation :=
      for_each (range 1 (len segment - 1)) 0 (fun totalDeviation i =>
        let* p := elem segment i in
        let px := x p in
        let py := y p in
        let dist :=
          abs ((y2 - y1) * px - (x2 - x1) * py + x2 * y1 - y2 * x1)
          / lineLen in
        Normal (totalDeviation + dist)) in
    let avgDeviation := totalDeviation / ofZ (len segment - 2) in
    let deviationRatio := avgDeviation / lineLen in
    Normal (Some ((deviationRatio <? 0.005) && (avgDeviation <? 2))).

(** The loop that counts [(tooStraightSegments, totalSegments)]. *)
Definition straightCounts (points : list Point) : completion (Z * Z) :=
  for_each (range_by 10 0 (len points - segmentSize)) (0, 0)%Z
    (fun '(tooStraightSegments, totalSegments) start =>
      let segment := slice points start (start + segmentSize) in
      let* r := straightSegment segment in
      Normal (match r with
              | None => (tooStraightSegments, totalSegments)
              | Some tooStraight =>
                  (if tooStraight then (tooStraightSegments + 1)%Z
                   else tooStraightSegments,
                   (totalSegments + 1)%Z)
              end)).

Definition straightRatio (points : list Point) : completion float :=
  let* (tooStraightSegments, totalSegments) := straightCounts points in
  Normal (if (totalSegments >? 0)%Z
          then ofZ tooStraightSegments / ofZ totalSegments else 0).

(** *** 7. Jerk analysis *)

Definition velocities (points : list Point) : completion (list Velocity) :=
  for_each (range 1 (len points)) [] (fun velocities i =>
    let* p := elem points i in
    let* q := elem points (i - 1) in
    let dt := t p - t q in
    Normal (if dt >? 0 then
              velocities ++ [mkVelocity ((x p - x q) / dt)
                                        ((y p - y q) / dt)
                                        (t p)]
            else velocities)).

Definition accelerations (velocities : list Velocity)
  : completion (list Acceleration) :=
  for_each (range 1 (len velocities)) [] (fun accelerations i =>
    let* v := elem velocities i in
    let* w := elem velocities (i - 1) in
    let dt := v_t v - v_t w in
    Normal (if dt >? 0 then
              accelerations ++ [mkAcceleration ((vx v - vx w) / dt)
                                               ((vy v - vy w) / dt)
                                               (v_t v)]
            else accelerations)).

Definition jerks (accelerations : list Acceleration)
  : completion (list float) :=
  for_each (range 1 (len accelerations)) [] (fun jerks i =>
    let* a := elem accelerations i in
    let* b := elem accelerations (i - 1) in
    let dt := a_t a - a_t b in
    Normal (if dt >? 0 then
              let jx := (ax a - ax b) / dt in
              let jy := (ay a - ay b) / dt in
              jerks ++ [sqrt (jx * jx + jy * jy)]
            else jerks)).

Definition jerkSpikes (jerks : list float) : Z :=
  if (len jerks >? 10)%Z then
    let jerkMean := sum jerks / ofZ (len jerks) in
    let jerkVariance :=
      reduce (fun sum j => sum + pow (j - jerkMean) 2) jerks 0
      / ofZ (len jerks) in
    let jerkStd := sqrt jerkVariance in
    count (fun j => abs (j - jerkMean) >? 2 * jerkStd) jerks
  else 0%Z.

Definition jerkSpikeRatio (jerks : list float) : float :=
  if (len jerks >? 0)%Z then ofZ (jerkSpikes jerks) / ofZ (len jerks) else 0.

(** *** 8. Acceleration sign change frequency *)

(** The loop state is [(accelSignChanges, lastAccelSign.x, lastAccelSign.y)]. *)
Definition accelSignChanges (accelerations : list Acceleration)
  : completion Z :=
  let* (accelSignChanges, _, _) :=
    for_each (range 0 (len accelerations)) (0%Z, 0, 0)
      (fun '(accelSignChanges, lastX, lastY) i =>
        let* a := elem accelerations i in
        let signX := sign (ax a) in
        let signY := sign (ay a) in
        let accelSignChanges :=
          if strict_neq lastX 0 && strict_neq signX 0
             && strict_neq signX lastX
          then (accelSignChanges + 1)%Z else accelSignChanges in
        let accelSignChanges :=
          if strict_neq lastY 0 && strict_neq signY 0
             && strict_neq signY lastY
          then (accelSignChanges + 1)%Z else accelSignChanges in
        Normal (accelSignChanges,
                if strict_neq signX 0 then signX else lastX,
                if strict_neq signY 0 then signY else lastY)) in
  Normal accelSignChanges.

Definition accelSignChangeRate (accelerations : list Acceleration)
  : completion float :=
  let* accelSignChanges := accelSignChanges accelerations in
  Normal (if (len accelerations >? 0)%Z
          then ofZ accelSignChanges / ofZ (len accelerations) else 0).

(** *** 9. Timing regularity *)

Definition timingVariance (timeGaps : list float) : float :=
  if (len timeGaps >? 10)%Z then
    let timingMean := sum timeGaps / ofZ (len timeGaps) in
    reduce (fun sum g => sum + pow (g - timingMean) 2) timeGaps 0
    / ofZ (len timeGaps)
  else 0.

Definition timingCV (timeGaps : list float) : float :=
  if timingVariance timeGaps >? 0
  then sqrt (timingVariance timeGaps) / (sum timeGaps / ofZ (len timeGaps))
  else 0.

(** *** 10. Curvature consistency *)

Definition curvatures (points : list Point) : completion (list float) :=
  for_each (range 2 (len points)) [] (fun curvatures i =>
    let* p1 := elem points (i - 1) in
    let* p2 := elem points (i - 2) in
    let* p0 := elem points i in
    let v1x := x p1 - x p2 in
    let v1y := y p1 - y p2 in
    let v2x := x p0 - x p1 in
    let v2y := y p0 - y p1 in
    let cross := v1x * v2y - v1y * v2x in
    let dot := v1x * v2x + v1y * v2y in
    let angle := atan2 cross dot in
    Normal (curvatures ++ [angle])).

Definition suddenCurvatureChanges (curvatures : list float) : Z :=
  fold_left (fun sudden i =>
      let change := abs (at_ curvatures i - at_ curvatures (i - 1)) in
      if change >? 0.3 then (sudden + 1)%Z else sudden)
    (range 1 (len curvatures)) 0%Z.

Definition curvatureChangeRate (curvatures : list float) : float :=
  if (len curvatures >? 0)%Z
  then ofZ (suddenCurvatureChanges curvatures) / ofZ (len curvatures)
  else 0.

(** *** 11. Velocity peak analysis *)

Definition speedMagnitudes (velocities : list Velocity) : list float :=
  map (fun v => sqrt (vx v * vx v + vy v * vy v)) velocities.

Definition velocityPeaks (speedMagnitudes : list float) : Z :=
  fold_left (fun velocityPeaks i =>
      let prev :=
        (at_ speedMagnitudes (i - 2) + at_ speedMagnitudes (i - 1)) / 2 in
      let curr := at_ speedMagnitudes i in
      let next :=
        (at_ speedMagnitudes (i + 1) + at_ speedMagnitudes (i + 2)) / 2 in
      if (curr >? prev * 1.15) && (curr >? next * 1.15) && (curr >? 0.5)
      then (velocityPeaks + 1)%Z else velocityPeaks)
    (range 2 (len speedMagnitudes - 2)) 0%Z.

Definition velocityPeaksPerSecond (speedMagnitudes : list float)
           (duration : float) : float :=
  ofZ (velocityPeaks speedMagnitudes) / (duration / 1000).

(** *** 12. Path efficiency *)

Definition totalPathLength (points : list Point) : completion float :=
  for_each (range 1 (len points)) 0 (fun totalPathLength i =>
    let* p := elem points i in
    let* q := elem points (i - 1) in
    let dx := x p - x q in
    let dy := y p - y q in
    Normal (totalPathLength + sqrt (dx * dx + dy * dy))).

Definition directDistance (points : list Point) : completion float :=
  let* last := elem points (len points - 1) in
  let* first := elem points 0 in
  Normal (sqrt (pow (x last - x first) 2 + pow (y last - y first) 2)).

Definition pathEfficiency (points : list Point) : completion float :=
  let* totalPathLength := totalPathLength points in
  let* directDistance := directDistance points in
  Normal (if directDistance >? 0 then directDistance / totalPathLength
          else 0).

(** *** 13. Noise autocorrelation *)

Definition residuals (points : list Point) : completion (list Residual) :=
  for_each (range 2 (len points - 2)) [] (fun residuals i =>
    let* a := elem points (i - 2) in
    let* b := elem points (i - 1) in
    let* c := elem points (i + 1) in
    let* d := elem points (i + 2) in
    let expectedX := (x a + x b + x c + x d) / 4 in
    let expectedY := (y a + y b + y c + y d) / 4 in
    let* p := elem points i in
    let residualX := x p - expectedX in
    let residualY := y p - expectedY in
    Normal (residuals ++ [mkResidual residualX residualY])).

(** [(autocorrSum, varianceSum)] *)
Definition residualSums (residuals : list Residual)
  : completion (float * float) :=
  if (len residuals >? 10)%Z then
    let meanX :=
      reduce (fun s r => s + rx r) residuals 0 / ofZ (len residuals) in
    let meanY :=
      reduce (fun s r => s + ry r) residuals 0 / ofZ (len residuals) in
    let* autocorrSum :=
      for_each (range 1 (len residuals)) 0 (fun autocorrSum i =>
        let* r := elem residuals i in
        let* r' := elem residuals (i - 1) in
        let autocorrSum := autocorrSum + (rx r - meanX) * (rx r' - meanX) in
        Normal (autocorrSum + (ry r - meanY) * (ry r' - meanY))) in
    let* varianceSum :=
      for_each (range 0 (len residuals)) 0 (fun varianceSum i =>
        let* r := elem residuals i in
        Normal (varianceSum
                + (pow (rx r - meanX) 2 + pow (ry r - meanY) 2))) in
    Normal (autocorrSum, varianceSum)
  else Normal (0, 0).

Definition noiseAutocorr (residuals : list Residual) : completion float :=
  let* (autocorrSum, varianceSum) := residualSums residuals in
  Normal (if varianceSum >? 0 then autocorrSum / varianceSum else 0).

(** *** 14. Direction change histogram *)

Definition directionChanges (curvatures : list float) : list float :=
  fold_left (fun directionChanges i =>
      directionChanges ++ [abs (at_ curvatures i)])
    (range 1 (len curvatures)) [].

Definition directionEntropy (curvatures : list float) : float :=
  let directionChanges := directionChanges curvatures in
  let smallChanges := count (fun d => d <? 0.05) directionChanges in
  let mediumChanges :=
    count (fun d => (d >=? 0.05) && (d <? 0.2)) directionChanges in
  let largeChanges := count (fun d => d >=? 0.2) directionChanges in
  let total :=
    if (len directionChanges =? 0)%Z then 1%Z else len directionChanges in
  - reduce (fun s p => s + p * log2 p)
      (filter (fun p => p >? 0)
         [ofZ smallChanges / ofZ total;
          ofZ mediumChanges / ofZ total;
          ofZ largeChanges / ofZ total])
      0.

(** *** 15. Overshoot detection *)

(** The loop state is [(velocityReversals, lastVelAngle)]; [None] is the
    initial [null]. *)
Definition velocityReversals (velocities : list Velocity) : completion Z :=
  let* (velocityReversals, _) :=
    for_each (range 0 (len velocities)) (0%Z, None)
      (fun '(velocityReversals, lastVelAngle) i =>
        let* v := elem velocities i in
        let velAngle := atan2 (vy v) (vx v) in
        let velocityReversals :=
          match lastVelAngle with
          | Some lastVelAngle =>
              let angleDiff := abs (velAngle - lastVelAngle) in
              let angleDiff :=
                if angleDiff >? PI then 2 * PI - angleDiff else angleDiff in
              if angleDiff >? PI / 2 then (velocityReversals + 1)%Z
              else velocityReversals
          | None => velocityReversals
          end in
        Normal (velocityReversals, Some velAngle)) in
  Normal velocityReversals.

Definition reversalRate (velocities : list Velocity) : completion float :=
  let* velocityReversals := velocityReversals velocities in
  Normal (if (len velocities >? 0)%Z
          then ofZ velocityReversals / ofZ (len velocities) else 0).

(** *** 16. Hesitation detection *)

Definition hesitations (speedMagnitudes : list float) : Z :=
  fold_left (fun hesitations i =>
      let before := sum (slice speedMagnitudes (i - 5) i) / 5 in
      let at' := at_ speedMagnitudes i in
      let after := sum (slice speedMagnitudes (i + 1) (i + 6)) / 5 in
      if (at' <? before * 0.5) && (at' <? after * 0.5)
         && (before >? 0.3) && (after >? 0.3)
      then (hesitations + 1)%Z else hesitations)
    (range 5 (len speedMagnitudes - 5)) 0%Z.

Definition hesitationRate (speedMagnitudes : list float) : float :=
  if (len speedMagnitudes >? 0)%Z
  then ofZ (hesitations speedMagnitudes) / ofZ (len speedMagnitudes)
  else 0.

(** *** 17. Jerk autocorrelation *)

Definition jerkAutocorr (jerks : list float) : float :=
  if (len jerks >? 20)%Z then
    let jerkMean := sum jerks / ofZ (len jerks) in
    let autocorrNum :=
      fold_left (fun autocorrNum i =>
          autocorrNum
          + (at_ jerks i - jerkMean) * (at_ jerks (i - 1) - jerkMean))
        (range 1 (len jerks)) 0 in
    let autocorrDenom :=
      fold_left (fun autocorrDenom i =>
          autocorrDenom + pow (at_ jerks i - jerkMean) 2)
        (range 0 (len jerks)) 0 in
    if autocorrDenom >? 0 then autocorrNum / autocorrDenom else 0
  else 0.

(** *** 18. Acceleration linearity *)

Definition accelSegmentSize : Z := 15.

(** The coefficient of determination of a straight-line fit to one window
    of acceleration magnitudes. *)
Definition r2 (accelMags : list float) : float :=
  let n := ofZ (len accelMags) in
  let sumX := n * (n - 1) / 2 in
  let sumX2 := n * (n - 1) * (2 * n - 1) / 6 in
  let sumY := sum accelMags in
  let sumXY := reduce_i (fun sum y x => sum + ofZ x * y) accelMags 0 in
  let slope := (n * sumXY - sumX * sumY) / (n * sumX2 - sumX * sumX) in
  let intercept := (sumY - slope * sumX) / n in
  let yMean := sumY / n in
  let '(ssRes, ssTot) :=
    fold_left (fun '(ssRes, ssTot) i =>
        let predicted := intercept + slope * ofZ i in
        (ssRes + pow (at_ accelMags i - predicted) 2,
         ssTot + pow (at_ accelMags i - yMean) 2))
      (range 0 (len accelMags)) (0, 0) in
  if ssTot >? 0 then 1 - ssRes / ssTot else 0.

(** The loop that counts [(linearAccelSegments, totalAccelSegments)]. *)
Definition linearAccelCounts (accelerations : list Acceleration) : Z * Z :=
  fold_left (fun '(linearAccelSegments, totalAccelSegments) start =>
      let segment := slice accelerations start (start + accelSegmentSize) in
      let accelMags :=
        map (fun a => sqrt (ax a * ax a + ay a * ay a)) segment in
      (if r2 accelMags >? 0.85 then (linearAccelSegments + 1)%Z
       else linearAccelSegments,
       (totalAccelSegments + 1)%Z))
    (range_by 10 0 (len accelerations - accelSegmentSize)) (0, 0)%Z.

Definition linearAccelRatio (accelerations : list Acceleration) : float :=
  let '(linearAccelSegments, totalAccelSegments) :=
    linearAccelCounts accelerations in
  if (totalAccelSegments >? 0)%Z
  then ofZ linearAccelSegments / ofZ totalAccelSegments else 0.

(** *** 19. Speed profile asymmetry *)

(** An element of [movementStarts]; every index the source reads is in
    range. *)
Definition index_at (l : list Z) (i : Z) : Z := nth (Z.to_nat i) l 0%Z.

Definition movementStarts (speedMagnitudes : list float) : list Z :=
  fold_left (fun movementStarts i =>
      if (at_ speedMagnitudes (i - 1) <? 0.3) && (at_ speedMagnitudes i >? 0.5)
      then movementStarts ++ [i] else movementStarts)
    (range 1 (len speedMagnitudes)) [0%Z]
  ++ [len speedMagnitudes].

(** The loop that counts [(symmetricMovements, totalMovements)]. *)
Definition symmetryCounts (speedMagnitudes : list float) : Z * Z :=
  let movementStarts := movementStarts speedMagnitudes in
  fold_left (fun '(symmetricMovements, totalMovements) m =>
      let start := index_at movementStarts m in
      let end' := index_at movementStarts (m + 1) in
      if (end' - start <? 10)%Z then (symmetricMovements, totalMovements)
      else
        let segment := slice speedMagnitudes start end' in
        let peakIdx := indexOf segment (Js.max segment) in
        if ((peakIdx >? 2) && (peakIdx <? len segment - 2))%Z then
          let accelPhase := peakIdx in
          let decelPhase := (len segment - peakIdx)%Z in
          let ratio :=
            ofZ (Z.min accelPhase decelPhase)
            / ofZ (Z.max accelPhase decelPhase) in
          (if ratio >? 0.7 then (symmetricMovements + 1)%Z
           else symmetricMovements,
           (totalMovements + 1)%Z)
        else (symmetricMovements, totalMovements))
    (range 0 (len movementStarts - 1)) (0, 0)%Z.

Definition symmetryRatio (speedMagnitudes : list float) : float :=
  let '(symmetricMovements, totalMovements) :=
    symmetryCounts speedMagnitudes in
  if (totalMovements >? 0)%Z
  then ofZ symmetricMovements / ofZ totalMovements else 0.

(** *** 20. X-Y noise correlation *)

Definition xyNoiseCorr (residuals : list Residual) : float :=
  if (len residuals >? 10)%Z then
    let meanX :=
      reduce (fun s r => s + rx r) residuals 0 / ofZ (len residuals) in
    let meanY :=
      reduce (fun s r => s + ry r) residuals 0 / ofZ (len residuals) in
    let '(covXY, varX, varY) :=
      fold_left (fun '(covXY, varX, varY) r =>
          (covXY + (rx r - meanX) * (ry r - meanY),
           varX + pow (rx r - meanX) 2,
           varY + pow (ry r - meanY) 2))
        residuals (0, 0, 0) in
    if (varX >? 0) && (varY >? 0) then abs (covXY / sqrt (varX * varY))
    else 0
  else 0.

(** *** 21. Movement initiation *)

(** The loop that counts [(perfectStarts, totalStarts)]. *)
Definition perfectStartCounts (points : list Point) : completion (Z * Z) :=
  for_each (range 1 (len points - 10)) (0, 0)%Z
    (fun '(perfectStarts, totalStarts) i =>
      let* p := elem points i in
      let* q := elem points (i - 1) in
      let gap := t p - t q in
      if gap >? 100 then
        let initPoints := slice points i (i + 8) in
        if (len initPoints >=? 8)%Z then
          let* i2 := elem initPoints 2 in
          let* i0 := elem initPoints 0 in
          let dir1 := atan2 (y i2 - y i0) (x i2 - x i0) in
          let* i7 := elem initPoints 7 in
          let* i5 := elem initPoints 5 in
          let dir2 := atan2 (y i7 - y i5) (x i7 - x i5) in
          let dirDiff := abs (dir1 - dir2) in
          let dirDiff := if dirDiff >? PI then 2 * PI - dirDiff else dirDiff in
          Normal (if dirDiff <? 0.35 then (perfectStarts + 1)%Z
                  else perfectStarts,
                  (totalStarts + 1)%Z)
        else Normal (perfectStarts, totalStarts)
      else Normal (perfectStarts, totalStarts)).

Definition perfectStartRatio (points : list Point) : completion float :=
  let* (perfectStarts, totalStarts) := perfectStartCounts points in
  Normal (if (totalStarts >? 0)%Z
          then ofZ perfectStarts / ofZ totalStarts else 0).

(** *** 22. Initial acceleration pattern *)

(** The inner loop with its [break]: false at the first speed that drops
    below 90% of its predecessor. *)
Fixpoint monotonic_from (prev : float) (initSpeeds : list float) : bool :=
  match initSpeeds with
  | [] => true
  | s :: rest => if s <? prev * 0.9 then false else monotonic_from s rest
  end.

Definition monotonic (initSpeeds : list float) : bool :=
  match initSpeeds with
  | [] => true
  | s :: rest => monotonic_from s rest
  end.

Definition initSpeeds (points : list Point) (i : Z) : completion (list float) :=
  for_each (range i (Z.min (i + 6) (len points))) [] (fun initSpeeds j =>
    let* p := elem points j in
    let* q := elem points (j - 1) in
    let dt := t p - t q in
    Normal (if dt >? 0 then
              let dx := x p - x q in
              let dy := y p - y q in
              initSpeeds ++ [sqrt (dx * dx + dy * dy) / dt]
            else initSpeeds)).

(** The loop that counts [(smoothAccelStarts, totalAccelStarts)]. *)
Definition smoothStartCounts (points : list Point) : completion (Z * Z) :=
  for_each (range 1 (len points - 8)) (0, 0)%Z
    (fun '(smoothAccelStarts, totalAccelStarts) i =>
      let* p := elem points i in
      let* q := elem points (i - 1) in
      let gap := t p - t q in
      if gap >? 100 then
        let* initSpeeds := initSpeeds points i in
        Normal (if (len initSpeeds >=? 4)%Z then
                  (if monotonic initSpeeds then (smoothAccelStarts + 1)%Z
                   else smoothAccelStarts,
                   (totalAccelStarts + 1)%Z)
                else (smoothAccelStarts, totalAccelStarts))
      else Normal (smoothAccelStarts, totalAccelStarts)).

Definition smoothStartRatio (points : list Point) : completion float :=
  let* (smoothAccelStarts, totalAccelStarts) := smoothStartCounts points in
  Normal (if (totalAccelStarts >? 0)%Z
          then ofZ smoothAccelStarts / ofZ totalAccelStarts else 0).

(** *** 23. Micro-movements during pauses *)

(** The loop that counts [(fidgetCount, stillPeriods)]. *)
Definition fidgetCounts (points : list Point) (speedMagnitudes : list float)
  : completion (Z * Z) :=
  for_each (range 5 (len speedMagnitudes - 5)) (0, 0)%Z
    (fun '(fidgetCount, stillPeriods) i =>
      let localSpeed := sum (slice speedMagnitudes (i - 2) (i + 3)) / 5 in
      if localSpeed <? 0.2 then
        let* a := elem points (i + 2) in
        let* b := elem points (i - 2) in
        let microDist := sqrt (pow (x a - x b) 2 + pow (y a - y b) 2) in
        Normal (if (microDist >? 1) && (microDist <? 10)
                then (fidgetCount + 1)%Z else fidgetCount,
                (stillPeriods + 1)%Z)
      else Normal (fidgetCount, stillPeriods)).

Definition fidgetRatio (points : list Point) (speedMagnitudes : list float)
  : completion float :=
  let* (fidgetCount, stillPeriods) := fidgetCounts points speedMagnitudes in
  Normal (if (stillPeriods >? 0)%Z
          then ofZ fidgetCount / ofZ stillPeriods else 0).

(** *** The anti-Bezier suite *)

Definition bezierSignals
           (jerkSpikeRatio accelSignChangeRate curvatureChangeRate
            velocityPeaksPerSecond pathEfficiency noiseAutocorr
            directionEntropy reversalRate jerkAutocorr linearAccelRatio
            symmetryRatio xyNoiseCorr perfectStartRatio smoothStartRatio
            fidgetRatio reversalRatio smoothRatio : float) : list bool :=
  [ jerkSpikeRatio <? 0.035;
    accelSignChangeRate <? 0.35;
    curvatureChangeRate <? 0.12;
    velocityPeaksPerSecond <? 2.0;
    pathEfficiency >? 0.75;
    abs noiseAutocorr <? 0.08;
    directionEntropy <? 1.4;
    reversalRate <? 0.02;
    abs jerkAutocorr <? 0.12;
    linearAccelRatio >? 0.3;
    symmetryRatio >? 0.6;
    xyNoiseCorr <? 0.10;
    perfectStartRatio >? 0.9;
    smoothStartRatio >? 0.6;
    fidgetRatio <? 0.10;
    reversalRatio >? 0.15;
    smoothRatio <? 0.45;
    curvatureChangeRate >? 0.55 ].

(** [bezierSignals.map((triggered, i) => triggered ? i : -1)
                  .filter(i => i >= 0)] *)
Definition triggeredSignals (bezierSignals : list bool) : list Z :=
  filter (fun i => (i >=? 0)%Z)
    (rev (reduce_i (fun acc (triggered : bool) i =>
                      (if triggered then i else (-1)%Z) :: acc)
                   bezierSignals [])).

(** *** The verdict *)

(** The object of the early return. *)
Definition insufficient_data : Result.t :=
  Result.make false (Some "insufficient_data"%string)
    (Checks.make false false false false false true)
    0%Z None false None None None None.

Definition analyzeMovement (points : option (list Point))
           (options : Options.t) : completion Result.t :=
  let targetHitsRequired :=
    or_default (Options.targetHitsRequired options) 5 in
  let targetHits := or_default (Options.targetHits options) 0 in
  match points with
  | None => Normal insufficient_data
  | Some points =>
  if (len points <? 15)%Z then Normal insufficient_data
  else
  let* speeds := speeds points in
  let speed := speedCheck speeds in
  let* smoothRatio := smoothRatio points in
  let curves := curvesCheck smoothRatio in
  let* reversalRatio := reversalRatio points in
  let jitter := jitterCheck reversalRatio in
  let* duration := duration points in
  let* (pauseCount, longPauseCount) := pauseCounts points in
  let timing := timingCheck points duration pauseCount longPauseCount in
  let* timeGaps := timeGaps points in
  let continuousRatio := continuousRatio timeGaps in
  let pointsPerSecond := pointsPerSecond points duration in
  let continuous := continuousCheck continuousRatio pointsPerSecond in
  let* straightRatio := straightRatio points in
  let* velocities := velocities points in
  let* accelerations := accelerations velocities in
  let* jerks := jerks accelerations in
  let jerkSpikeRatio := jerkSpikeRatio jerks in
  let* accelSignChangeRate := accelSignChangeRate accelerations in
  let timingCV := timingCV timeGaps in
  let* curvatures := curvatures points in
  let curvatureChangeRate := curvatureChangeRate curvatures in
  let speedMagnitudes := speedMagnitudes velocities in
  let velocityPeaksPerSecond :=
    velocityPeaksPerSecond speedMagnitudes duration in
  let* pathEfficiency := pathEfficiency points in
  let* residuals := residuals points in
  let* noiseAutocorr := noiseAutocorr residuals in
  let directionEntropy := directionEntropy curvatures in
  let* reversalRate := reversalRate velocities in
  let hesitationRate := hesitationRate speedMagnitudes in
  let jerkAutocorr := jerkAutocorr jerks in
  let linearAccelRatio := linearAccelRatio accelerations in
  let symmetryRatio := symmetryRatio speedMagnitudes in
  let xyNoiseCorr := xyNoiseCorr residuals in
  let* perfectStartRatio := perfectStartRatio points in
  let* smoothStartRatio := smoothStartRatio points in
  let* fidgetRatio := fidgetRatio points speedMagnitudes in
  let bezierSignals :=
    bezierSignals jerkSpikeRatio accelSignChangeRate curvatureChangeRate
      velocityPeaksPerSecond pathEfficiency noiseAutocorr directionEntropy
      reversalRate jerkAutocorr linearAccelRatio symmetryRatio xyNoiseCorr
      perfectStartRatio smoothStartRatio fidgetRatio reversalRatio
      smoothRatio in
  let bezierSignalCount := count id bezierSignals in
  let isBezierLike := (bezierSignalCount >=? 3)%Z in
  let isTimingTooRegular := timingCV <? 0.12 in
  let notRobotic :=
    (straightRatio <? 0.5) && negb isBezierLike && negb isTimingTooRegular in
  let checks := Checks.make speed curves jitter timing continuous notRobotic in
  let checkValues := [speed; curves; jitter; timing; continuous; notRobotic] in
  let targetCheck := targetHits >=? targetHitsRequired in
  let checksPassed :=
    (count id checkValues + (if targetCheck then 1 else 0))%Z in
  let aiFailures :=
    count id [negb curves; negb continuous; negb notRobotic; negb timing] in
  let aiDetected := (aiFailures >=? 2)%Z in
  let allPassed := forallb id checkValues && targetCheck in
  Normal
    (Result.make allPassed None checks checksPassed (Some 7%Z) aiDetected
       (Some duration) (Some (len points)) (Some DETECTION_VERSION)
       (Some (Metrics.make
                (if (len speeds >? 0)%Z then Js.max speeds / Js.min speeds
                 else 0)
                smoothRatio reversalRatio continuousRatio pointsPerSecond
                straightRatio jerkSpikeRatio accelSignChangeRate
                curvatureChangeRate timingCV velocityPeaksPerSecond
                pathEfficiency noiseAutocorr directionEntropy reversalRate
                hesitationRate jerkAutocorr linearAccelRatio symmetryRatio
                xyNoiseCorr perfectStartRatio smoothStartRatio fidgetRatio
                bezierSignalCount isBezierLike isTimingTooRegular
                (triggeredSignals bezierSignals))))
  end.

End Signals.

(* ================================================================== *)
(** ** Attestation: [generateSignature], [verifySignature], [hashMovement] *)

(** What the code takes from Node: the hex digests of [crypto], the two
    calls of [JSON.stringify], and the fact that a SHA-256 digest in hex
    has 64 characters.  Strings are byte strings (UTF-8), so
    [Buffer.from(s)] is the list of the characters of [s]. *)
Class Node : Type := {
  (** [crypto.createHmac('sha256', key).update(data).digest('hex')] *)
  hmac_sha256_hex : string -> string -> string;
  (** [crypto.createHash('sha256').update(data).digest('hex')] *)
  sha256_hex : string -> string;
  (** [JSON.stringify(points)] *)
  stringify_points : list Point -> string;
  (** [JSON.stringify({movementHash, recordId, timestamp, checksPassed})] *)
  stringify_payload : string -> option string -> Z -> Z -> string;
  hmac_sha256_hex_length :
    forall key data, String.length (hmac_sha256_hex key data) = 64%nat
}.

(** The successive readings of [Date.now()]: the state counts the calls
    made so far, the clock gives the reading of each. *)
Definition Clock : Type := nat -> Z.

(** The argument [data] of [generateSignature]. *)
Module SignData.
Record t : Type := make {
  points : list Point;
  recordId : option string;
  checksPassed : Z
}.
End SignData.

Module Signed.
Record t : Type := make {
  signature : string;
  timestamp : Z;
  payload : string
}.
End Signed.

Definition Buffer_from (s : string) : list ascii := list_ascii_of_string s.

(** [crypto.timingSafeEqual(a, b)]: Node raises a [RangeError] when the
    two buffers differ in byte length. *)
Definition timingSafeEqual (a b : list ascii) : completion bool :=
  if (len a =? len b)%Z
  then Normal (if list_eq_dec ascii_dec a b then true else false)
  else Throw RangeError.

Section Attestation.

Context {N : Node}.

Definition hashMovement (points : list Point) : string :=
  let data := stringify_points points in
  sha256_hex data.

(** [generateSignature] reads the clock once; [now] is that reading. *)
Definition generateSignature (secretKey : string) (data : SignData.t)
           (now : Z) : Signed.t :=
  let timestamp := now in
  let payload :=
    stringify_payload (hashMovement (SignData.points data))
      (SignData.recordId data) timestamp (SignData.checksPassed data) in
  let signature := hmac_sha256_hex secretKey payload in
  Signed.make signature timestamp payload.

Definition verifySignature (secretKey signature payload : string)
  : completion bool :=
  let expectedSignature := hmac_sha256_hex secretKey payload in
  timingSafeEqual (Buffer_from signature) (Buffer_from expectedSignature).

End Attestation.

(* ================================================================== *)
(** ** The session registry and its two routes ([server/index.js]) *)

Module Session.
Record t : Type := make {
  signature : string;
  timestamp : Z;
  recordId : option string;
  expiresAt : Z
}.
End Session.

(** [verifiedSessions], a [Map]: at most one entry per key, in insertion
    order. *)
Definition Sessions : Type := list (string * Session.t).

Fixpoint Map_get (m : Sessions) (key : string) : option Session.t :=
  match m with
  | [] => None
  | (k, v) :: rest => if String.eqb k key then Some v else Map_get rest key
  end.

Fixpoint Map_set (m : Sessions) (key : string) (v : Session.t) : Sessions :=
  match m with
  | [] => [(key, v)]
  | (k, v') :: rest =>
      if String.eqb k key then (k, v) :: rest
      else (k, v') :: Map_set rest key v
  end.

Definition Map_delete (m : Sessions) (key : string) : Sessions :=
  filter (fun kv => negb (String.eqb (fst kv) key)) m.

(** The process state: the registry and the number of clock readings
    made so far. *)
Module Server.
Record t : Type := make {
  verifiedSessions : Sessions;
  ticks : nat
}.
End Server.

(** The JSON bodies of the two requests; a property that is absent (or,
    for [points], not an array) is [None]. *)
Module VerifyBody.
Record t : Type := make {
  points : option (list Point);
  targetHits : option float;
  recordId : option string
}.
End VerifyBody.

Module LookupBody.
Record t : Type := make {
  sessionId : option string;
  signature : option string
}.
End LookupBody.

Inductive Response : Type :=
| BadRequest (error : string)
| InternalError (error : string)
| Verified (signature sessionId : string) (timestamp : Z)
           (checks : Checks.t) (checksPassed : Z) (metrics : option Metrics.t)
| NotVerified (aiDetected : bool) (checks : Checks.t) (checksPassed : Z)
              (reason : string) (metrics : option Metrics.t)
| Lookup (valid : bool) (reason : option string) (recordId : option string)
         (timestamp : option Z).

(** [s || d] for a string property: absent and empty are falsy. *)
Definition string_or (s : option string) (d : string) : string :=
  match s with
  | None => d
  | Some s => if String.eqb s EmptyString then d else s
  end.

Section Routes.

Context {M : MathLib} {N : Node}.

Variable clock : Clock.
Variable SECRET_KEY : string.

Definition Date_now (s : Server.t) : Z * Server.t :=
  (clock (Server.ticks s),
   Server.make (Server.verifiedSessions s) (S (Server.ticks s))).

Definition with_sessions (s : Server.t) (m : Sessions) : Server.t :=
  Server.make m (Server.ticks s).

(** [for (const [key, value] of verifiedSessions)
       if (value.expiresAt < Date.now()) verifiedSessions.delete(key);]
    Deleting the entry being visited does not disturb the iteration, so
    the loop visits the entries present when it starts. *)
Definition sweep_step (s : Server.t) (kv : string * Session.t) : Server.t :=
  let (now, s) := Date_now s in
  if (Session.expiresAt (snd kv) <? now)%Z
  then with_sessions s (Map_delete (Server.verifiedSessions s) (fst kv))
  else s.

Definition cleanExpired (s : Server.t) : Server.t :=
  fold_left sweep_step (Server.verifiedSessions s) s.

(** The block of [POST /api/verify] that runs once the movement is
    verified: sign, store the session, sweep. *)
Definition issueSession (points : list Point) (recordId : option string)
           (checksPassed : Z) (s : Server.t) : Signed.t * string * Server.t :=
  let (now, s) := Date_now s in
  let sigData :=
    generateSignature SECRET_KEY
      (SignData.make points (Some (string_or recordId "anonymous"))
         checksPassed)
      now in
  let sessionId := substring 0 16 (Signed.signature sigData) in
  let (now', s) := Date_now s in
  let s :=
    with_sessions s
      (Map_set (Server.verifiedSessions s) sessionId
         (Session.make (Signed.signature sigData) (Signed.timestamp sigData)
            recordId (now' + 3600000)%Z)) in
  (sigData, sessionId, cleanExpired s).

(** [POST /api/verify] *)
Definition verifyRoute (body : VerifyBody.t) (s : Server.t)
  : Response * Server.t :=
  match VerifyBody.points body with
  | None => (BadRequest "Missing or invalid points array", s)
  | Some points =>
      match analyzeMovement (Some points)
              (Options.make (Some 5%float)
                 (Some (Js.or_default (VerifyBody.targetHits body) 0%float)))
      with
      | Throw _ => (InternalError "Internal server error", s)
      | Normal result =>
          if Result.verified result then
            let '(sigData, sessionId, s) :=
              issueSession points (VerifyBody.recordId body)
                (Result.checksPassed result) s in
            (Verified (Signed.signature sigData) sessionId
               (Signed.timestamp sigData) (Result.checks result)
               (Result.checksPassed result) (Result.metrics result), s)
          else
            (NotVerified (Result.aiDetected result) (Result.checks result)
               (Result.checksPassed result)
               (string_or (Result.reason result) "checks_failed")
               (Result.metrics result), s)
      end
  end.

(** [POST /api/verify-signature] *)
Definition verifySignatureRoute (body : LookupBody.t) (s : Server.t)
  : Response * Server.t :=
  match LookupBody.sessionId body, LookupBody.signature body with
  | Some sessionId, Some signature =>
      if String.eqb sessionId EmptyString
         || String.eqb signature EmptyString then
        (BadRequest "Missing sessionId or signature", s)
      else
        match Map_get (Server.verifiedSessions s) sessionId with
        | None => (Lookup false (Some "session_not_found"%string) None None, s)
        | Some session =>
            let (now, s) := Date_now s in
            if (Session.expiresAt session <? now)%Z then
              (Lookup false (Some "session_expired"%string) None None,
               with_sessions s
                 (Map_delete (Server.verifiedSessions s) sessionId))
            else
              let valid := String.eqb (Session.signature session) signature in
              (Lookup valid None
                 (if valid then Session.recordId session else None)
                 (if valid then Some (Session.timestamp session) else None),
               s)
        end
  | _, _ => (BadRequest "Missing sessionId or signature", s)
  end.

End Routes.

(* ================================================================== *)
(** ** A reference [Math], for running the model

    Every theorem below holds for any [MathLib].  To evaluate the model on
    concrete movements one instance is needed; this one computes [atan2],
    [acos] and [log2] by argument reduction and power series, to within a
    few units in the last place, and [pow] for the only exponent the
    source uses. *)

Module RefMath.

Local Open Scope float_scope.

(** [sum_{k < n} (sign^k) z^(2k+1) / (2k+1)], by Horner's rule in [z^2]. *)
Fixpoint odd_series (alternate : bool) (n : nat) (k : Z) (z2 : float)
  : float :=
  match n with
  | O => 0
  | S n' =>
      let tail := odd_series alternate n' (k + 1) z2 in
      1 / Js.ofZ (2 * k + 1) + (if alternate then - (z2 * tail) else z2 * tail)
  end.

Definition halve (a : float) : float := a / (1 + sqrt (1 + a * a)).

(** [atan] on [0 <= a <= 1] *)
Definition atan_small (a : float) : float :=
  let b := halve (halve (halve a)) in
  8 * (b * odd_series true 14 0 (b * b)).

Definition atan (a : float) : float :=
  if is_nan a then nan
  else
    let m := abs a in
    let r := if m <=? 1 then atan_small m else Js.PI / 2 - atan_small (1 / m) in
    if a <? 0 then - r else r.

Definition ref_atan2 (b a : float) : float :=
  if is_nan a || is_nan b then nan
  else if a >? 0 then
    (if is_infinity b then (if b >? 0 then Js.PI / 4 else - (Js.PI / 4))
     else atan (b / a))
  else if a <? 0 then
    (if is_infinity b then
       (if b >? 0 then 3 * Js.PI / 4 else - (3 * Js.PI / 4))
     else if get_sign b then atan (b / a) - Js.PI
     else atan (b / a) + Js.PI)
  else if b >? 0 then Js.PI / 2
  else if b <? 0 then - (Js.PI / 2)
  else if get_sign a then (if get_sign b then - Js.PI else Js.PI)
  else b.

Definition ref_acos (a : float) : float :=
  if (abs a <=? 1) then ref_atan2 (sqrt ((1 - a) * (1 + a))) a else nan.

Definition LN2 : float := 0.6931471805599453.

Definition ref_log2 (a : float) : float :=
  if is_nan a || (a <? 0) then nan
  else if a =? 0 then neg_infinity
  else if is_infinity a then infinity
  else
    let (m, e) := Z.frexp a in
    let (m, e) := if m <? 0.7071067811865476 then (2 * m, (e - 1)%Z)
                  else (m, e) in
    let z := (m - 1) / (m + 1) in
    Js.ofZ e + 2 * (z * odd_series false 18 0 (z * z)) / LN2.

Definition ref_pow (a b : float) : float :=
  if b =? 2 then a * a else if b =? 1 then a else if b =? 0 then 1 else nan.

#[export] Instance math : MathLib := {
  acos := ref_acos;
  atan2 := ref_atan2;
  log2 := ref_log2;
  pow := ref_pow
}.

End RefMath.

(* ================================================================== *)
(** ** A stand-in for Node, for running the model

    Every theorem below holds for any [Node].  To run the routes on a
    concrete request one instance is needed.  This one is not
    cryptographic: its digests are a 256-bit multiplicative hash written
    as 64 hex characters, and its serialisations write each number by its
    mantissa and exponent. *)

Module StandIn.

Definition hex_digit (n : N) : ascii :=
  match n with
  | 0%N => "0" | 1%N => "1" | 2%N => "2" | 3%N => "3" | 4%N => "4"
  | 5%N => "5" | 6%N => "6" | 7%N => "7" | 8%N => "8" | 9%N => "9"
  | 10%N => "a" | 11%N => "b" | 12%N => "c" | 13%N => "d" | 14%N => "e"
  | _ => "f"
  end%char.

(** The last [digits] hex digits of [n]. *)
Fixpoint hex_fixed (digits : nat) (n : N) (suffix : string) : string :=
  match digits with
  | O => suffix
  | S d => hex_fixed d (n / 16)%N (String (hex_digit (n mod 16)%N) suffix)
  end.

Fixpoint digest_from (acc : N) (s : string) : N :=
  match s with
  | EmptyString => acc
  | String c rest =>
      digest_from
        ((acc * 1099511628211 + N_of_ascii c + 1) mod 2 ^ 256)%N rest
  end.

Definition digest (s : string) : string :=
  hex_fixed 64 (digest_from 14695981039346656037%N s) EmptyString.

Definition number_key (a : float) : string :=
  let (m, e) := Z.frexp a in
  ((if get_sign a then "-" else EmptyString)
   ++ hex_fixed 16 (Z.to_N (Uint63.to_Z (normfr_mantissa m))) EmptyString
   ++ "p" ++ hex_fixed 4 (Z.to_N (e + 2000)) EmptyString)%string.

Definition point_key (p : Point) : string :=
  ("[" ++ number_key (x p) ++ "," ++ number_key (y p) ++ ","
   ++ number_key (t p) ++ "]")%string.

Definition payload_key (movementHash : string) (recordId : option string)
           (timestamp checksPassed : Z) : string :=
  ("{" ++ movementHash ++ ","
   ++ match recordId with Some r => r | None => EmptyString end ++ ","
   ++ hex_fixed 16 (Z.to_N timestamp) EmptyString ++ ","
   ++ hex_fixed 2 (Z.to_N checksPassed) EmptyString ++ "}")%string.

#[export] Instance node : Node := {
  hmac_sha256_hex key data := digest (key ++ ":" ++ data);
  sha256_hex := digest;
  stringify_points points := String.concat "," (map point_key points);
  stringify_payload := payload_key;
  hmac_sha256_hex_length key data := eq_refl
}.

End StandIn.

(* ================================================================== *)
(** ** Specification-side definitions *)

(** A computation that returns normally. *)
Definition returns {A : Type} (m : completion A) : Prop :=
  exists a, m = Normal a.

(** [checkValues], the six primary checks in the order of the source. *)
Definition checkValues (c : Checks.t) : list bool :=
  [Checks.speed c; Checks.curves c; Checks.jitter c; Checks.timing c;
   Checks.continuous c; Checks.notRobotic c].

(** The four checks whose failures are counted for [aiDetected], negated
    as in the source. *)
Definition aiFailureFlags (c : Checks.t) : list bool :=
  [negb (Checks.curves c); negb (Checks.continuous c);
   negb (Checks.notRobotic c); negb (Checks.timing c)].

(** The effective [targetHits] and [targetHitsRequired] (the two local
    constants of [analyzeMovement]) and the target-tracking check. *)
Definition effectiveTargetHits (options : Options.t) : float :=
  Js.or_default (Options.targetHits options) 0%float.

Definition effectiveTargetHitsRequired (options : Options.t) : float :=
  Js.or_default (Options.targetHitsRequired options) 5%float.

Definition targetCheck (options : Options.t) : bool :=
  (effectiveTargetHits options >=? effectiveTargetHitsRequired options)%float.

(** The 18 signals of the anti-Bezier suite, read off the metrics that a
    result reports. *)
Definition signalsOf (m : Metrics.t) : list bool :=
  bezierSignals (Metrics.jerkSpikeRatio m) (Metrics.accelSignChangeRate m)
    (Metrics.curvatureChangeRate m) (Metrics.velocityPeaksPerSecond m)
    (Metrics.pathEfficiency m) (Metrics.noiseAutocorr m)
    (Metrics.directionEntropy m) (Metrics.reversalRate m)
    (Metrics.jerkAutocorr m) (Metrics.linearAccelRatio m)
    (Metrics.symmetryRatio m) (Metrics.xyNoiseCorr m)
    (Metrics.perfectStartRatio m) (Metrics.smoothStartRatio m)
    (Metrics.fidgetRatio m) (Metrics.reversalRatio m) (Metrics.smoothRatio m).

(** The steps of a movement: its pairs of consecutive samples. *)
Fixpoint steps (points : list Point) : list (Point * Point) :=
  match points with
  | [] => []
  | p :: rest =>
      match rest with
      | [] => []
      | q :: _ => (p, q) :: steps rest
      end
  end.

(** The time gap of each step. *)
Definition stepGaps (points : list Point) : list float :=
  map (fun '(p, q) => (t q - t p)%float) (steps points).

Definition origin : Point := mkPoint 0 0 0.

(** The total time span: from the first sample to the last. *)
Definition timeSpan (points : list Point) : float :=
  (t (last points origin) - t (hd origin points))%float.

Section Straightness.

Context {M : MathLib}.

Local Open Scope float_scope.

(** The 20-sample windows, one every 10 samples, as long as samples
    remain beyond the window. *)
Definition windows (points : list Point) : list (list Point) :=
  map (fun start => slice points start (start + 20))
      (range_by 10 0 (len points - 20)).

(** The distance between the two endpoints of a window. *)
Definition endpointDistance (w : list Point) : float :=
  let a := hd origin w in
  let b := last w origin in
  sqrt (pow (x b - x a) 2 + pow (y b - y a) 2).

(** The perpendicular distance of [p] from the line through the
    endpoints of [w]. *)
Definition deviation (w : list Point) (p : Point) : float :=
  let a := hd origin w in
  let b := last w origin in
  abs ((y b - y a) * x p - (x b - x a) * y p + x b * y a - y b * x a)
  / endpointDistance w.

(** The interior points of a window: all but its two endpoints. *)
Definition interior (w : list Point) : list Point := removelast (tl w).

Definition meanDeviation (w : list Point) : float :=
  Js.sum (map (deviation w) (interior w)) / Js.ofZ (len w - 2).

(** A window is evaluated unless its endpoints are less than 10px apart;
    an evaluated window is too straight when the mean deviation is below
    0.5% of the endpoint distance and below 2px. *)
Definition evaluated (w : list Point) : bool :=
  negb (endpointDistance w <? 10).

Definition tooStraight (w : list Point) : bool :=
  (meanDeviation w / endpointDistance w <? 0.005) && (meanDeviation w <? 2).

(** The fraction of the evaluated windows that are too straight; 0 when
    no window is evaluated. *)
Definition straightFraction (points : list Point) : float :=
  let ws := filter evaluated (windows points) in
  if (len ws >? 0)%Z then Js.ofZ (count tooStraight ws) / Js.ofZ (len ws)
  else 0.

End Straightness.

(** A falsy option value: absent, zero or NaN. *)
Definition falsy (v : option float) : Prop :=
  match v with
  | None => True
  | Some a => Js.truthy a = false
  end.

(* ================================================================== *)
(** ** Sample movements *)

(** Forty samples of a hand-like movement: uneven speed, a few
    reversals, irregular timing. *)
Definition human_path : list Point :=
  [mkPoint 300 300 1000;
   mkPoint 301 302 1008;
   mkPoint 302 303 1016;
   mkPoint 306 309 1032;
   mkPoint 318 330 1065;
   mkPoint 354 383 1135;
   mkPoint 383 425 1190;
   mkPoint 389 436 1205;
   mkPoint 392 441 1211;
   mkPoint 393 445 1219;
   mkPoint 382 461 1243;
   mkPoint 378 467 1250;
   mkPoint 371 480 1266;
   mkPoint 367 490 1275;
   mkPoint 360 494 1281;
   mkPoint 356 500 1289;
   mkPoint 353 486 1306;
   mkPoint 350 477 1322;
   mkPoint 347 465 1346;
   mkPoint 344 462 1354;
   mkPoint 339 460 1362;
   mkPoint 325 471 1386;
   mkPoint 318 476 1394;
   mkPoint 311 482 1402;
   mkPoint 278 501 1435;
   mkPoint 270 506 1444;
   mkPoint 263 507 1450;
   mkPoint 258 511 1458;
   mkPoint 254 517 1466;
   mkPoint 248 529 1490;
   mkPoint 237 547 1523;
   mkPoint 225 561 1547;
   mkPoint 221 568 1555;
   mkPoint 210 586 1572;
   mkPoint 215 593 1581;
   mkPoint 225 605 1596;
   mkPoint 247 633 1629;
   mkPoint 242 626 1638;
   mkPoint 236 618 1645;
   mkPoint 170 530 1755]%float.

(** Twenty identical samples. *)
Definition still_path : list Point := repeat (mkPoint 100 200 1000) 20.

(** Seventeen samples on a line; of the sixteen steps five take 60ms and
    eleven take 10ms. *)
Definition pauses_path : list Point :=
  [mkPoint 0 0 0; mkPoint 10 3 60; mkPoint 20 6 70; mkPoint 30 9 80;
   mkPoint 40 12 140; mkPoint 50 15 150; mkPoint 60 18 160;
   mkPoint 70 21 220; mkPoint 80 24 230; mkPoint 90 27 240;
   mkPoint 100 30 300; mkPoint 110 33 310; mkPoint 120 36 320;
   mkPoint 130 39 380; mkPoint 140 42 390; mkPoint 150 45 400;
   mkPoint 160 48 410]%float.

(** Fifty samples evenly spaced on a straight line, 16ms apart. *)
Definition line_path : list Point :=
  map (fun k => mkPoint (Js.ofZ (100 + 8 * k)) (Js.ofZ (100 + 6 * k))
                        (Js.ofZ (16 * k)))
      (range 0 50).

(** Six hits reported, five required. *)
Definition six_hits : Options.t := Options.make (Some 5%float) (Some 6%float).

(** What the model computes on [human_path] with six hits, under the
    reference [Math]. *)
Definition human_result : Result.t :=
  Eval vm_compute in
    match analyzeMovement (M := RefMath.math) (Some human_path) six_hits with
    | Normal r => r
    | Throw _ => insufficient_data
    end.

(** What the model computes on [pauses_path]. *)
Definition pauses_result : Result.t :=
  Eval vm_compute in
    match analyzeMovement (M := RefMath.math) (Some pauses_path)
            Options.empty with
    | Normal r => r
    | Throw _ => insufficient_data
    end.

(** A registry as a [Map] holds it: no key twice. *)
Definition registry_ok (m : Sessions) : Prop := NoDup (map fst m).

(** A request with [human_path], a clock that advances 25ms between
    readings, and the response of [POST /api/verify] on a fresh server. *)
Definition sample_clock : Clock :=
  fun k => (1700000000000 + 25 * Z.of_nat k)%Z.

Definition sample_key : string := "not-a-secret".

Definition fresh_server : Server.t := Server.make [] 0.

Definition human_request : VerifyBody.t :=
  VerifyBody.make (Some human_path) (Some 6%float) (Some "record-1"%string).

Definition human_response : Response * Server.t :=
  Eval vm_compute in
    verifyRoute (M := RefMath.math) (N := StandIn.node) sample_clock
      sample_key human_request fresh_server.

Definition issued_server : Server.t := Eval vm_compute in snd human_response.

Definition issued_signature : string :=
  Eval vm_compute in
    match fst human_response with
    | Verified signature _ _ _ _ _ => signature
    | _ => EmptyString
    end.

Definition issued_id : string :=
  Eval vm_compute in substring 0 16 issued_signature.

Definition issued_session : Session.t :=
  Session.make issued_signature 1700000000000 (Some "record-1"%string)
    1700003600025.

(** A clock whose readings are 4000 seconds apart. *)
Definition late_clock : Clock :=
  fun k => (1700000000000 + 4000000 * Z.of_nat k)%Z.

(*END-DEFS*)

(* ================================================================== *)
(** * Properties *)

(** ** Loops and arrays *)

Lemma range_unfold (lo hi : Z) :
  range lo hi = map (fun k => (lo + Z.of_nat k)%Z) (seq 0 (Z.to_nat (hi - lo))).
Proof.
  unfold range, range_by.
  replace ((hi - lo + 1 - 1) / 1)%Z with (hi - lo)%Z
    by (rewrite Z.div_1_r; lia).
  apply map_ext; intros k; lia.
Qed.

Lemma In_range (lo hi i : Z) : In i (range lo hi) -> (lo <= i < hi)%Z.
Proof.
  rewrite range_unfold, in_map_iff.
  intros (k & <- & Hk). apply in_seq in Hk. lia.
Qed.

Lemma In_range_by (step lo hi i : Z) :
  (0 < step)%Z -> In i (range_by step lo hi) -> (lo <= i < hi)%Z.
Proof.
  intros Hs. unfold range_by. rewrite in_map_iff.
  intros (k & <- & Hk). apply in_seq in Hk.
  assert (Hq : (step * ((hi - lo + step - 1) / step) <= hi - lo + step - 1)%Z)
    by (apply Z.mul_div_le; lia).
  set (q := ((hi - lo + step - 1) / step)%Z) in *.
  assert (Hk' : (0 <= Z.of_nat k <= q - 1)%Z) by lia.
  nia.
Qed.

(** [range_by] is the loop header: it visits, in increasing order, the
    [lo + step * k] that are below [hi]. *)
Lemma In_range_by_iff (step lo hi i : Z) :
  (0 < step)%Z ->
  In i (range_by step lo hi)
  <-> exists k, (0 <= k)%Z /\ i = (lo + step * k)%Z /\ (i < hi)%Z.
Proof.
  intros Hs. split.
  - intros Hin. pose proof (@In_range_by step lo hi i Hs Hin) as Hb.
    unfold range_by in Hin. apply in_map_iff in Hin.
    destruct Hin as (k & <- & _). exists (Z.of_nat k). lia.
  - intros (k & Hk & -> & Hlt). unfold range_by. apply in_map_iff.
    exists (Z.to_nat k). split; [f_equal; lia|].
    apply in_seq. split; [lia|]. simpl.
    assert (Hq : (k + 1 <= (hi - lo + step - 1) / step)%Z)
      by (apply Z.div_le_lower_bound; [lia|nia]).
    lia.
Qed.

Lemma len_nonneg {A : Type} (l : list A) : (0 <= len l)%Z.
Proof. unfold len. lia. Qed.

Lemma len_app {A : Type} (l l' : list A) : len (l ++ l') = (len l + len l')%Z.
Proof. unfold len. rewrite length_app. lia. Qed.

Lemma elem_nth {A : Type} (d : A) (l : list A) (i : Z) :
  (0 <= i < len l)%Z -> elem l i = Normal (nth (Z.to_nat i) l d).
Proof.
  intros Hi. unfold elem, len in *.
  destruct (Z.ltb_spec i 0); [lia|].
  destruct (nth_error l (Z.to_nat i)) as [a|] eqn:E.
  - now rewrite (nth_error_nth _ _ _ E).
  - apply nth_error_None in E. lia.
Qed.

Lemma len_slice {A : Type} (l : list A) (a b : Z) :
  (0 <= a <= b)%Z -> (b <= len l)%Z -> len (slice l a b) = (b - a)%Z.
Proof.
  intros Ha Hb. unfold slice, rel_index.
  destruct (Z.ltb_spec a 0); [lia|].
  destruct (Z.ltb_spec b 0); [lia|].
  unfold len in *. rewrite length_firstn, length_skipn. lia.
Qed.

Lemma returns_Normal {A : Type} (a : A) : returns (Normal a).
Proof. now exists a. Qed.

Lemma returns_elem {A : Type} (l : list A) (i : Z) :
  (0 <= i < len l)%Z -> returns (elem l i).
Proof.
  intros Hi. destruct l as [|d l]; [unfold len in Hi; simpl in Hi; lia|].
  eexists. now apply (elem_nth d).
Qed.

Lemma returns_bind {A B : Type} (m : completion A) (k : A -> completion B) :
  returns m -> (forall a, returns (k a)) -> returns (bind m k).
Proof. intros [a ->] Hk. apply Hk. Qed.

Lemma returns_for_each {S : Type} (idxs : list Z)
      (body : S -> Z -> completion S) :
  (forall s i, In i idxs -> returns (body s i)) ->
  forall s, returns (for_each idxs s body).
Proof.
  induction idxs as [|i rest IH]; intros Hbody s; simpl.
  - apply returns_Normal.
  - apply returns_bind.
    + apply Hbody. now left.
    + intros s'. apply IH. intros s'' j Hj. apply Hbody. now right.
Qed.

(** A loop whose body always returns a pure function of its state is a
    fold. *)
Lemma for_each_fold {S : Type} (idxs : list Z) (body : S -> Z -> completion S)
      (f : S -> Z -> S) :
  (forall s i, In i idxs -> body s i = Normal (f s i)) ->
  forall s, for_each idxs s body = Normal (fold_left f idxs s).
Proof.
  induction idxs as [|i rest IH]; intros Hbody s; simpl; [reflexivity|].
  rewrite Hbody by now left. simpl.
  apply IH. intros s' j Hj. apply Hbody. now right.
Qed.

(** An invariant indexed by the number of iterations done. *)
Lemma for_each_invariant {S : Type} (I : nat -> S -> Prop) (idxs : list Z)
      (body : S -> Z -> completion S) :
  (forall k s i s', I k s -> body s i = Normal s' -> I (Datatypes.S k) s') ->
  forall k s s',
    I k s -> for_each idxs s body = Normal s' ->
    I (k + List.length idxs)%nat s'.
Proof.
  intros Hstep.
  induction idxs as [|i rest IH]; intros k s s' HI Hrun; simpl in *.
  - injection Hrun as <-. now rewrite Nat.add_0_r.
  - destruct (body s i) as [s1|e] eqn:E; simpl in Hrun; [|discriminate].
    rewrite <- Nat.add_succ_comm. eapply IH; eauto.
Qed.

Lemma length_range (lo hi : Z) :
  List.length (range lo hi) = Z.to_nat (hi - lo).
Proof. rewrite range_unfold, length_map, length_seq. reflexivity. Qed.

(** Steps of the proofs that a computation returns. *)
Ltac in_range :=
  repeat match goal with
         | H : In _ (range _ _) |- _ => apply In_range in H
         | H : In _ (range_by _ _ _) |- _ =>
             apply In_range_by in H; [|lia]
         | H : (_ >=? _)%Z = true |- _ => apply Z.geb_le in H
         end.

Ltac returns_step :=
  lazymatch goal with
  | |- returns (Normal _) => apply returns_Normal
  | |- returns (bind _ _) => apply returns_bind; [|intros ?]
  | |- returns (elem _ _) => apply returns_elem; in_range; lia
  | |- returns (for_each _ _ _) => apply returns_for_each; intros ? ? ?
  | |- returns (if ?c then _ else _) => destruct c eqn:?
  | |- returns (match ?p with _ => _ end) => destruct p
  | |- returns ((match ?p with _ => _ end) _) => destruct p
  end.

Ltac returns_auto := repeat returns_step.

Section Totality.

Context {M : MathLib}.

Lemma speeds_returns (points : list Point) : returns (speeds points).
Proof. unfold speeds. returns_auto. Qed.

Lemma smoothRatio_returns (points : list Point) : returns (smoothRatio points).
Proof. unfold smoothRatio, smoothCounts. returns_auto. Qed.

Lemma reversalRatio_returns (points : list Point) :
  returns (reversalRatio points).
Proof. unfold reversalRatio, reversals. returns_auto. Qed.

Lemma duration_returns (points : list Point) :
  (1 <= len points)%Z -> returns (duration points).
Proof. intros H. unfold duration. returns_auto. Qed.

Lemma pauseCounts_returns (points : list Point) : returns (pauseCounts points).
Proof. unfold pauseCounts. returns_auto. Qed.

Lemma timeGaps_returns (points : list Point) : returns (timeGaps points).
Proof. unfold timeGaps. returns_auto. Qed.

Lemma straightSegment_returns (segment : list Point) :
  (1 <= len segment)%Z -> returns (straightSegment segment).
Proof. intros H. unfold straightSegment. returns_auto. Qed.

Lemma straightRatio_returns (points : list Point) :
  returns (straightRatio points).
Proof.
  unfold straightRatio, straightCounts, segmentSize.
  returns_step.
  - returns_step. destruct s as [tooStraight total].
    returns_step; [|returns_auto].
    apply straightSegment_returns. in_range.
    rewrite len_slice by lia. lia.
  - returns_auto.
Qed.

Lemma velocities_returns (points : list Point) : returns (velocities points).
Proof. unfold velocities. returns_auto. Qed.

Lemma velocities_length (points : list Point) (vs : list Velocity) :
  velocities points = Normal vs -> (len vs <= Z.max 0 (len points - 1))%Z.
Proof.
  intros H. unfold velocities in H.
  apply (for_each_invariant (fun k s => (List.length s <= k)%nat))
    with (k := 0%nat) in H.
  - rewrite length_range in H. unfold len in *. lia.
  - intros k s i s' Hk Hb.
    destruct (elem points i); simpl in Hb; [|discriminate].
    destruct (elem points (i - 1)); simpl in Hb; [|discriminate].
    injection Hb as <-.
    destruct (PrimFloat.ltb _ _); [rewrite length_app; simpl|]; lia.
  - simpl. lia.
Qed.

Lemma accelerations_returns (velocities : list Velocity) :
  returns (accelerations velocities).
Proof. unfold accelerations. returns_auto. Qed.

Lemma jerks_returns (accelerations : list Acceleration) :
  returns (jerks accelerations).
Proof. unfold jerks. returns_auto. Qed.

Lemma accelSignChangeRate_returns (accelerations : list Acceleration) :
  returns (accelSignChangeRate accelerations).
Proof. unfold accelSignChangeRate, accelSignChanges. returns_auto. Qed.

Lemma curvatures_returns (points : list Point) : returns (curvatures points).
Proof. unfold curvatures. returns_auto. Qed.

Lemma pathEfficiency_returns (points : list Point) :
  (1 <= len points)%Z -> returns (pathEfficiency points).
Proof.
  intros H. unfold pathEfficiency, totalPathLength, directDistance.
  returns_auto.
Qed.

Lemma residuals_returns (points : list Point) : returns (residuals points).
Proof. unfold residuals. returns_auto. Qed.

Lemma noiseAutocorr_returns (residuals : list Residual) :
  returns (noiseAutocorr residuals).
Proof. unfold noiseAutocorr, residualSums. returns_auto. Qed.

Lemma reversalRate_returns (velocities : list Velocity) :
  returns (reversalRate velocities).
Proof. unfold reversalRate, velocityReversals. returns_auto. Qed.

Lemma perfectStartRatio_returns (points : list Point) :
  returns (perfectStartRatio points).
Proof.
  unfold perfectStartRatio, perfectStartCounts.
  returns_auto.
Qed.

Lemma initSpeeds_returns (points : list Point) (i : Z) :
  (1 <= i)%Z -> returns (initSpeeds points i).
Proof. intros H. unfold initSpeeds. returns_auto. Qed.

Lemma smoothStartRatio_returns (points : list Point) :
  returns (smoothStartRatio points).
Proof.
  unfold smoothStartRatio, smoothStartCounts.
  returns_step; [|returns_auto].
  returns_step. destruct s as [smoothAccelStarts totalAccelStarts].
  do 3 returns_step; [|returns_auto].
  returns_step; [|returns_auto].
  apply initSpeeds_returns. in_range. lia.
Qed.

Lemma fidgetRatio_returns (points : list Point) (speedMagnitudes : list float) :
  (len speedMagnitudes <= len points)%Z ->
  returns (fidgetRatio points speedMagnitudes).
Proof. intros H. unfold fidgetRatio, fidgetCounts. returns_auto. Qed.

Lemma returns_bind_eq {A B : Type} (m : completion A)
      (k : A -> completion B) :
  returns m -> (forall a, m = Normal a -> returns (k a)) -> returns (bind m k).
Proof. intros [a ->] Hk. now apply Hk. Qed.

(** [analyzeMovement] returns on every array of samples: no property is
    ever read from a missing element. *)
Lemma analyzeMovement_returns (points : option (list Point))
      (options : Options.t) :
  returns (analyzeMovement points options).
Proof.
  unfold analyzeMovement.
  destruct points as [points|]; [|apply returns_Normal].
  destruct (Z.ltb_spec (len points) 15) as [Hshort|Hlen];
    [apply returns_Normal|].
  apply returns_bind; [apply speeds_returns|intros speeds_].
  apply returns_bind; [apply smoothRatio_returns|intros smoothRatio_].
  apply returns_bind; [apply reversalRatio_returns|intros reversalRatio_].
  apply returns_bind; [apply duration_returns; lia|intros duration_].
  apply returns_bind; [apply pauseCounts_returns|intros [pauseCount long]].
  apply returns_bind; [apply timeGaps_returns|intros timeGaps_].
  apply returns_bind; [apply straightRatio_returns|intros straightRatio_].
  apply returns_bind_eq; [apply velocities_returns|intros vs Hvs].
  apply returns_bind; [apply accelerations_returns|intros accs].
  apply returns_bind; [apply jerks_returns|intros jerks_].
  apply returns_bind; [apply accelSignChangeRate_returns|intros ascr].
  apply returns_bind; [apply curvatures_returns|intros curvatures_].
  apply returns_bind; [apply pathEfficiency_returns; lia|intros pe].
  apply returns_bind; [apply residuals_returns|intros residuals_].
  apply returns_bind; [apply noiseAutocorr_returns|intros na].
  apply returns_bind; [apply reversalRate_returns|intros rr].
  apply returns_bind; [apply perfectStartRatio_returns|intros psr].
  apply returns_bind; [apply smoothStartRatio_returns|intros ssr].
  apply returns_bind; [|intros fr; apply returns_Normal].
  apply fidgetRatio_returns.
  apply velocities_length in Hvs.
  unfold speedMagnitudes, len in *. rewrite length_map. lia.
Qed.

(** Reading a run of [analyzeMovement] backwards, one [let*] at a time. *)
Ltac bind_inv H :=
  repeat match type of H with
         | bind ?m _ = Normal _ =>
             let E := fresh "E" in
             destruct m eqn:E; cbn [bind] in H; [|discriminate H]
         | (let '(_, _) := ?p in _) = Normal _ => destruct p
         end.

(** What a result on 15 samples or more is made of. *)
Lemma analyzeMovement_inv (points : list Point) (options : Options.t)
      (r : Result.t) :
  (15 <= len points)%Z ->
  analyzeMovement (Some points) options = Normal r ->
  exists dur pauseCount longPauseCount gaps sr m vs,
    duration points = Normal dur
    /\ pauseCounts points = Normal (pauseCount, longPauseCount)
    /\ timeGaps points = Normal gaps
    /\ straightRatio points = Normal sr
    /\ velocities points = Normal vs
    /\ Result.metrics r = Some m
    /\ Result.reason r = None
    /\ Result.duration r = Some dur
    /\ Metrics.pointsPerSecond m = pointsPerSecond points dur
    /\ Metrics.velocityPeaksPerSecond m
       = velocityPeaksPerSecond (speedMagnitudes vs) dur
    /\ Checks.timing (Result.checks r)
       = timingCheck points dur pauseCount longPauseCount
    /\ Checks.notRobotic (Result.checks r)
       = ((sr <? 0.5)%float
          && negb (count id (signalsOf m) >=? 3)%Z
          && negb (timingCV gaps <? 0.12)%float)
    /\ Result.verified r
       = (forallb id (checkValues (Result.checks r)) && targetCheck options)
    /\ Result.checksPassed r
       = (count id (checkValues (Result.checks r))
          + (if targetCheck options then 1 else 0))%Z
    /\ Result.aiDetected r
       = (count id (aiFailureFlags (Result.checks r)) >=? 2)%Z.
Proof.
  intros Hlen H. unfold analyzeMovement in H.
  destruct (Z.ltb_spec (len points) 15) as [Hshort|_]; [lia|].
  bind_inv H.
  injection H as <-.
  do 7 eexists.
  repeat (split; [reflexivity|]). reflexivity.
Qed.

End Totality.

(* ================================================================== *)
(** ** The early return *)

(** C1, as stated, fails on the empty array: the early return hands back
    the initial [checks] object, in which [notRobotic] is [true]. *)
Lemma insufficient_data_not_all_false :
  ~ (forall r,
        analyzeMovement (M := RefMath.math) (Some []) Options.empty
        = Normal r ->
        Result.verified r = false
        /\ Result.checksPassed r = 0%Z
        /\ Result.reason r = Some "insufficient_data"%string
        /\ Forall (fun b => b = false) (checkValues (Result.checks r))).
Proof.
  intros H.
  destruct (H insufficient_data eq_refl) as (_ & _ & _ & Hall).
  unfold checkValues in Hall; simpl in Hall.
  repeat match goal with
         | H : Forall _ (_ :: _) |- _ => inversion H; clear H; subst
         end.
  discriminate.
Qed.

(** C1 (amended): on fewer than 15 samples [analyzeMovement] returns
    [verified = false], [checksPassed = 0], [reason = 'insufficient_data'],
    with [speed], [curves], [jitter], [timing] and [continuous] false and
    [notRobotic] at its initial value, true. *)
Theorem analyzeMovement_insufficient_data
        {M : MathLib} (points : list Point) (options : Options.t) :
  (len points < 15)%Z ->
  exists r,
    analyzeMovement (Some points) options = Normal r
    /\ Result.verified r = false
    /\ Result.checksPassed r = 0%Z
    /\ Result.reason r = Some "insufficient_data"%string
    /\ Checks.speed (Result.checks r) = false
    /\ Checks.curves (Result.checks r) = false
    /\ Checks.jitter (Result.checks r) = false
    /\ Checks.timing (Result.checks r) = false
    /\ Checks.continuous (Result.checks r) = false
    /\ Checks.notRobotic (Result.checks r) = true.
Proof.
  intros Hshort. exists insufficient_data.
  unfold analyzeMovement.
  destruct (Z.ltb_spec (len points) 15) as [_|Hlong]; [|lia].
  repeat split; reflexivity.
Qed.

Lemma analyzeMovement_insufficient_data_witness :
  (len (firstn 14 human_path) < 15)%Z
  /\ exists r,
      analyzeMovement (M := RefMath.math) (Some (firstn 14 human_path))
        six_hits = Normal r
      /\ Result.verified r = false
      /\ Result.checksPassed r = 0%Z
      /\ Result.reason r = Some "insufficient_data"%string
      /\ Checks.speed (Result.checks r) = false
      /\ Checks.curves (Result.checks r) = false
      /\ Checks.jitter (Result.checks r) = false
      /\ Checks.timing (Result.checks r) = false
      /\ Checks.continuous (Result.checks r) = false
      /\ Checks.notRobotic (Result.checks r) = true.
Proof.
  split; [reflexivity|].
  apply (analyzeMovement_insufficient_data (M := RefMath.math)
           (firstn 14 human_path) six_hits).
  reflexivity.
Defined.

(* ================================================================== *)
(** ** The verdict *)

(** C2: in every result, [checksPassed] lies between 0 and 7, and a
    verified result has [checksPassed = 7] and [aiDetected = false]. *)
Theorem analyzeMovement_checksPassed_bounds
        {M : MathLib} (points : option (list Point)) (options : Options.t)
        (r : Result.t) :
  analyzeMovement points options = Normal r ->
  (0 <= Result.checksPassed r <= 7)%Z
  /\ (Result.verified r = true ->
      Result.checksPassed r = 7%Z /\ Result.aiDetected r = false).
Proof.
  intros H.
  assert (Hearly : r = insufficient_data ->
                   (0 <= Result.checksPassed r <= 7)%Z
                   /\ (Result.verified r = true ->
                       Result.checksPassed r = 7%Z
                       /\ Result.aiDetected r = false)).
  { intros ->. simpl. split; [lia|discriminate]. }
  destruct points as [points|];
    [|apply Hearly; unfold analyzeMovement in H; congruence].
  destruct (Z.ltb_spec (len points) 15) as [Hshort|Hlen].
  - apply Hearly. unfold analyzeMovement in H.
    destruct (Z.ltb_spec (len points) 15); [congruence|lia].
  - destruct (analyzeMovement_inv _ _ Hlen H)
      as (dur & pc & lpc & gaps & sr & m & vs & _ & _ & _ & _ & _ & _ & _ & _
          & _ & _ & _ & _ & Hv & Hp & Ha).
    rewrite Hv, Hp, Ha. clear.
    destruct (Result.checks r) as [[] [] [] [] [] []];
      destruct (targetCheck options); cbn;
      (split; [lia|intros; try discriminate; split; reflexivity]).
Qed.

(** A run of [analyzeMovement] on 15 samples or more: it returns, and the
    result is made as [analyzeMovement_inv] says. *)
Ltac run_analysis points options Hlen r :=
  let Hr := fresh "Hr" in
  destruct (analyzeMovement_returns (Some points) options) as [r Hr];
  exists r; split; [exact Hr|];
  let dur := fresh "dur" in
  let pc := fresh "pauseCount" in
  let lpc := fresh "longPauseCount" in
  let gaps := fresh "gaps" in
  let sr := fresh "sr" in
  let m := fresh "m" in
  let vs := fresh "vs" in
  destruct (analyzeMovement_inv _ _ Hlen Hr)
    as (dur & pc & lpc & gaps & sr & m & vs & Hdur & Hpauses & Hgaps & Hsr
        & Hvelocities & Hmetrics & Hreason & Hduration & HpointsPerSecond
        & HvelocityPeaks & Htiming & HnotRobotic & Hverified & HchecksPassed
        & HaiDetected).

(** C5: on 15 samples or more, [aiDetected] holds exactly when at least
    two of [curves], [continuous], [notRobotic], [timing] are false, and
    [verified] holds exactly when the six primary checks are all true and
    [targetHits >= targetHitsRequired] (the two local constants, after
    their defaults). *)
Theorem analyzeMovement_verdict
        {M : MathLib} (points : list Point) (options : Options.t) :
  (15 <= len points)%Z ->
  exists r,
    analyzeMovement (Some points) options = Normal r
    /\ (Result.aiDetected r = true <->
        (2 <= count negb [Checks.curves (Result.checks r);
                          Checks.continuous (Result.checks r);
                          Checks.notRobotic (Result.checks r);
                          Checks.timing (Result.checks r)])%Z)
    /\ (Result.verified r = true <->
        Checks.speed (Result.checks r) = true
        /\ Checks.curves (Result.checks r) = true
        /\ Checks.jitter (Result.checks r) = true
        /\ Checks.timing (Result.checks r) = true
        /\ Checks.continuous (Result.checks r) = true
        /\ Checks.notRobotic (Result.checks r) = true
        /\ (effectiveTargetHits options
            >=? effectiveTargetHitsRequired options)%float = true).
Proof.
  intros Hlen. run_analysis points options Hlen r.
  rewrite Hverified, HaiDetected. unfold targetCheck. clear.
  destruct (Result.checks r) as [[] [] [] [] [] []];
    destruct (PrimFloat.leb _ _); cbn;
    (split; split; intros; try discriminate; try lia; try reflexivity;
     repeat match goal with H : _ /\ _ |- _ => destruct H end;
     try discriminate; repeat split; reflexivity).
Qed.

(** C10: when [options.targetHitsRequired] is zero (or any falsy value)
    the required number of hits is the default 5: the target check counts
    towards [checksPassed] exactly when [targetHits >= 5], and a verified
    result has [targetHits >= 5]. *)
Theorem targetHitsRequired_falsy_is_five
        {M : MathLib} (points : list Point) (options : Options.t) :
  falsy (Options.targetHitsRequired options) ->
  (15 <= len points)%Z ->
  effectiveTargetHitsRequired options = 5%float
  /\ targetCheck options = (effectiveTargetHits options >=? 5)%float
  /\ exists r,
      analyzeMovement (Some points) options = Normal r
      /\ Result.checksPassed r
         = (count id (checkValues (Result.checks r))
            + (if (effectiveTargetHits options >=? 5)%float then 1 else 0))%Z
      /\ (Result.verified r = true ->
          (effectiveTargetHits options >=? 5)%float = true).
Proof.
  intros Hfalsy Hlen.
  assert (Hfive : effectiveTargetHitsRequired options = 5%float).
  { unfold effectiveTargetHitsRequired, Js.or_default.
    destruct (Options.targetHitsRequired options) as [a|]; [|reflexivity].
    simpl in Hfalsy. now rewrite Hfalsy. }
  assert (Htc : targetCheck options
                = (effectiveTargetHits options >=? 5)%float).
  { unfold targetCheck. now rewrite Hfive. }
  split; [exact Hfive|]. split; [exact Htc|].
  run_analysis points options Hlen r.
  rewrite Hverified, HchecksPassed, Htc. split; [reflexivity|].
  intros Hv. apply andb_true_iff in Hv. apply Hv.
Qed.

Lemma analyzeMovement_checksPassed_bounds_witness :
  analyzeMovement (M := RefMath.math) (Some human_path) six_hits
  = Normal human_result
  /\ (0 <= Result.checksPassed human_result <= 7)%Z
  /\ (Result.verified human_result = true ->
      Result.checksPassed human_result = 7%Z
      /\ Result.aiDetected human_result = false).
Proof.
  split; [vm_compute; reflexivity|].
  apply (analyzeMovement_checksPassed_bounds (M := RefMath.math)
           (Some human_path) six_hits).
  vm_compute; reflexivity.
Defined.

Lemma analyzeMovement_verdict_witness :
  (15 <= len human_path)%Z
  /\ exists r,
      analyzeMovement (M := RefMath.math) (Some human_path) six_hits
      = Normal r
      /\ (Result.aiDetected r = true <->
          (2 <= count negb [Checks.curves (Result.checks r);
                            Checks.continuous (Result.checks r);
                            Checks.notRobotic (Result.checks r);
                            Checks.timing (Result.checks r)])%Z)
      /\ (Result.verified r = true <->
          Checks.speed (Result.checks r) = true
          /\ Checks.curves (Result.checks r) = true
          /\ Checks.jitter (Result.checks r) = true
          /\ Checks.timing (Result.checks r) = true
          /\ Checks.continuous (Result.checks r) = true
          /\ Checks.notRobotic (Result.checks r) = true
          /\ (effectiveTargetHits six_hits
              >=? effectiveTargetHitsRequired six_hits)%float = true).
Proof.
  split; [vm_compute; discriminate|].
  apply (analyzeMovement_verdict (M := RefMath.math) human_path six_hits).
  vm_compute; discriminate.
Defined.

(** Asking for zero hits: three hits still do not pass the target check. *)
Example zero_required_three_hits :
  targetCheck (Options.make (Some 0%float) (Some 3%float)) = false.
Proof. reflexivity. Qed.

Lemma targetHitsRequired_falsy_is_five_witness :
  falsy (Options.targetHitsRequired
           (Options.make (Some 0%float) (Some 6%float)))
  /\ (15 <= len human_path)%Z
  /\ effectiveTargetHitsRequired (Options.make (Some 0%float) (Some 6%float))
     = 5%float
  /\ targetCheck (Options.make (Some 0%float) (Some 6%float))
     = (effectiveTargetHits (Options.make (Some 0%float) (Some 6%float))
        >=? 5)%float
  /\ exists r,
      analyzeMovement (M := RefMath.math) (Some human_path)
        (Options.make (Some 0%float) (Some 6%float)) = Normal r
      /\ Result.checksPassed r
         = (count id (checkValues (Result.checks r))
            + (if (effectiveTargetHits
                     (Options.make (Some 0%float) (Some 6%float)) >=? 5)%float
               then 1 else 0))%Z
      /\ (Result.verified r = true ->
          (effectiveTargetHits (Options.make (Some 0%float) (Some 6%float))
           >=? 5)%float = true).
Proof.
  split; [reflexivity|].
  split; [vm_compute; discriminate|].
  apply (targetHitsRequired_falsy_is_five (M := RefMath.math) human_path
           (Options.make (Some 0%float) (Some 6%float))).
  - reflexivity.
  - vm_compute; discriminate.
Defined.

(* ================================================================== *)
(** ** Loops over the steps of a movement *)

Lemma steps_nth (points : list Point) :
  steps points
  = map (fun k => (nth k points origin, nth (S k) points origin))
        (seq 0 (List.length points - 1)).
Proof.
  induction points as [|p [|q rest] IH]; try reflexivity.
  change (steps (p :: q :: rest)) with ((p, q) :: steps (q :: rest)).
  rewrite IH.
  replace (List.length (p :: q :: rest) - 1)%nat
    with (S (List.length (q :: rest) - 1)) by (simpl; lia).
  rewrite <- cons_seq, <- seq_shift. cbn [map]. rewrite map_map.
  reflexivity.
Qed.

Lemma steps_range (points : list Point) :
  map (fun i => (nth (Z.to_nat (i - 1)) points origin,
                 nth (Z.to_nat i) points origin))
      (range 1 (len points))
  = steps points.
Proof.
  rewrite steps_nth, range_unfold, map_map.
  replace (Z.to_nat (len points - 1)) with (List.length points - 1)%nat
    by (unfold len; lia).
  apply map_ext. intros k.
  replace (Z.to_nat (1 + Z.of_nat k - 1)) with k by lia.
  replace (Z.to_nat (1 + Z.of_nat k)) with (S k) by lia.
  reflexivity.
Qed.

Lemma fold_left_map_arg {A B S : Type} (f : S -> B -> S) (h : A -> B)
      (l : list A) (s : S) :
  fold_left f (map h l) s = fold_left (fun s a => f s (h a)) l s.
Proof. revert s. induction l; intros s; simpl; auto. Qed.

(** A loop that reads [points[i]] and [points[i - 1]] for
    [i = 1 .. points.length - 1] folds over the steps. *)
Lemma for_each_steps {S : Type} (points : list Point)
      (body : S -> Z -> completion S) (g : S -> Point -> Point -> S) :
  (forall s i,
      body s i
      = let* p := elem points i in
        let* q := elem points (i - 1) in
        Normal (g s q p)) ->
  forall s,
    for_each (range 1 (len points)) s body
    = Normal (fold_left (fun s '(q, p) => g s q p) (steps points) s).
Proof.
  intros Hbody s.
  rewrite (for_each_fold _ body
             (fun s i => g s (nth (Z.to_nat (i - 1)) points origin)
                           (nth (Z.to_nat i) points origin))).
  - rewrite <- steps_range, fold_left_map_arg. reflexivity.
  - intros s' i Hi. apply In_range in Hi.
    rewrite Hbody.
    rewrite (elem_nth origin) by lia. cbn [bind].
    rewrite (elem_nth origin) by lia. reflexivity.
Qed.

Lemma count_cons {A : Type} (f : A -> bool) (a : A) (l : list A) :
  count f (a :: l) = ((if f a then 1 else 0) + count f l)%Z.
Proof.
  unfold count, len. cbn [filter].
  destruct (f a); cbn [List.length]; lia.
Qed.

Lemma elem_first (points : list Point) :
  (1 <= len points)%Z -> elem points 0 = Normal (hd origin points).
Proof.
  intros H. rewrite (elem_nth origin) by lia.
  destruct points; reflexivity.
Qed.

Lemma elem_last (points : list Point) :
  (1 <= len points)%Z ->
  elem points (len points - 1) = Normal (last points origin).
Proof.
  intros H. rewrite (elem_nth origin) by lia. f_equal.
  destruct (exists_last (l := points)) as (l' & a & ->).
  { intros ->. unfold len in H. simpl in H. lia. }
  rewrite last_last. unfold len. rewrite length_app. simpl.
  replace (Z.to_nat (Z.of_nat (List.length l' + 1) - 1)) with (List.length l')
    by lia.
  now rewrite nth_middle.
Qed.

Section Timing.

Context {M : MathLib}.

Lemma duration_timeSpan (points : list Point) :
  (1 <= len points)%Z -> duration points = Normal (timeSpan points).
Proof.
  intros H. unfold duration.
  rewrite elem_last, elem_first by exact H. reflexivity.
Qed.


Lemma pauseCounts_stepGaps (points : list Point) :
  pauseCounts points
  = Normal (count (fun g => (g >? 50)%float) (stepGaps points),
            count (fun g => (g >? 150)%float) (stepGaps points)).
Proof.
  unfold pauseCounts.
  rewrite (for_each_steps points _
             (fun s q p =>
                let '(pauseCount, longPauseCount) := s in
                (if (t p - t q >? 50)%float then (pauseCount + 1)%Z
                 else pauseCount,
                 if (t p - t q >? 150)%float then (longPauseCount + 1)%Z
                 else longPauseCount)))
    by (intros [? ?] ?; reflexivity).
  f_equal. unfold stepGaps.
  enough (H : forall l a b,
             fold_left
               (fun s '(q, p) =>
                  let '(pauseCount, longPauseCount) := s in
                  (if (t p - t q >? 50)%float then (pauseCount + 1)%Z
                   else pauseCount,
                   if (t p - t q >? 150)%float then (longPauseCount + 1)%Z
                   else longPauseCount)) l (a, b)
             = ((a + count (fun g => (g >? 50)%float)
                       (map (fun '(p, q) => (t q - t p)%float) l))%Z,
                (b + count (fun g => (g >? 150)%float)
                       (map (fun '(p, q) => (t q - t p)%float) l))%Z))
    by apply (H _ 0%Z 0%Z).
  induction l as [|[p q] l IH]; intros a b; simpl.
  - unfold count, len. simpl. f_equal; lia.
  - rewrite IH, !count_cons.
    destruct (PrimFloat.ltb 50 _), (PrimFloat.ltb 150 _); f_equal; lia.
Qed.

End Timing.

(* ================================================================== *)
(** ** The timing check *)

(** C7, as stated, fails on [pauses_path]: 5 of its 16 steps are longer
    than 50ms, a fraction of 0.3125, and yet the timing check passes,
    because the source divides the count by the 17 samples. *)
Lemma timing_not_a_fraction_of_steps :
  ~ (forall r,
        analyzeMovement (M := RefMath.math) (Some pauses_path) Options.empty
        = Normal r ->
        (Checks.timing (Result.checks r) = true <->
         (timeSpan pauses_path >? 300)%float = true
         /\ (Js.ofZ (count (fun g => (g >? 50)%float) (stepGaps pauses_path))
             / Js.ofZ (len (steps pauses_path)) <? 0.3)%float = true
         /\ (Js.ofZ (count (fun g => (g >? 150)%float) (stepGaps pauses_path))
             / Js.ofZ (len (steps pauses_path)) <? 0.1)%float = true)).
Proof.
  intros H.
  assert (Hrun : analyzeMovement (M := RefMath.math) (Some pauses_path)
                   Options.empty = Normal pauses_result)
    by (vm_compute; reflexivity).
  destruct (H _ Hrun) as [Hpass _].
  destruct (Hpass eq_refl) as (_ & Hfraction & _).
  vm_compute in Hfraction. discriminate.
Qed.

(** C7 (amended): on 15 samples or more, the timing check is true exactly
    when the total time span exceeds 300ms, the number of steps whose gap
    exceeds 50ms divided by the number of samples is below 0.3, and the
    number of steps whose gap exceeds 150ms is below 0.1 times the number
    of samples. *)
Theorem timing_check_iff
        {M : MathLib} (points : list Point) (options : Options.t) :
  (15 <= len points)%Z ->
  exists r,
    analyzeMovement (Some points) options = Normal r
    /\ (Checks.timing (Result.checks r) = true <->
        (timeSpan points >? 300)%float = true
        /\ (Js.ofZ (count (fun g => (g >? 50)%float) (stepGaps points))
            / Js.ofZ (len points) <? 0.3)%float = true
        /\ (Js.ofZ (count (fun g => (g >? 150)%float) (stepGaps points))
            <? Js.ofZ (len points) * 0.1)%float = true).
Proof.
  intros Hlen. run_analysis points options Hlen r.
  rewrite duration_timeSpan in Hdur by lia.
  rewrite pauseCounts_stepGaps in Hpauses.
  injection Hdur as <-. injection Hpauses as <- <-.
  rewrite Htiming. unfold timingCheck.
  rewrite !andb_true_iff. tauto.
Qed.

Lemma timing_check_iff_witness :
  (15 <= len pauses_path)%Z
  /\ exists r,
      analyzeMovement (M := RefMath.math) (Some pauses_path) Options.empty
      = Normal r
      /\ (Checks.timing (Result.checks r) = true <->
          (timeSpan pauses_path >? 300)%float = true
          /\ (Js.ofZ (count (fun g => (g >? 50)%float) (stepGaps pauses_path))
              / Js.ofZ (len pauses_path) <? 0.3)%float = true
          /\ (Js.ofZ (count (fun g => (g >? 150)%float)
                        (stepGaps pauses_path))
              <? Js.ofZ (len pauses_path) * 0.1)%float = true).
Proof.
  split; [vm_compute; discriminate|].
  apply (timing_check_iff (M := RefMath.math) pauses_path Options.empty).
  vm_compute; discriminate.
Defined.

(* ================================================================== *)
(** ** No movement at all *)

(** The difference of a number with itself is +0 or NaN, so it exceeds no
    positive threshold. *)
Lemma sub_diag_not_above (a c : float) :
  (0 <? c)%float = true -> (a - a >? c)%float = false.
Proof.
  rewrite !FloatAxioms.ltb_spec, FloatAxioms.sub_spec.
  assert (Hzero : Prim2SF 0 = S754_zero false) by reflexivity.
  rewrite Hzero. clear Hzero.
  destruct (Prim2SF c) as [sc|sc| |sc mc ec]; try discriminate;
    destruct (Prim2SF a) as [sa|sa| |sa ma ea];
    try (destruct sc; discriminate);
    intros Hc; unfold SF64sub, SFsub;
    try rewrite Z.sub_diag;
    try (destruct sa); try (destruct sc); try reflexivity; try discriminate.
Qed.

(** On 20 samples that are all the same point at the same time,
    [analyzeMovement] returns normally and the result is not verified. *)
Lemma analyzeMovement_no_movement
      {M : MathLib} (p : Point) (options : Options.t) :
  exists r,
    analyzeMovement (Some (repeat p 20)) options = Normal r
    /\ Result.verified r = false.
Proof.
  assert (Hlen : (15 <= len (repeat p 20))%Z) by (vm_compute; discriminate).
  run_analysis (repeat p 20) options Hlen r.
  rewrite duration_timeSpan in Hdur by lia.
  injection Hdur as <-.
  rewrite Hverified. unfold checkValues. cbn [forallb id].
  rewrite Htiming. unfold timingCheck.
  change (timeSpan _) with (t p - t p)%float.
  rewrite sub_diag_not_above by reflexivity.
  cbn [andb id]. now rewrite !andb_false_r.
Qed.

(** C9 on [still_path], twenty copies of one sample: the run returns
    normally and is not verified, but it does divide by zero.  The
    duration is 0, so [pointsPerSecond = 20 / (0 / 1000)] is an infinity
    and [velocityPeaksPerSecond = 0 / (0 / 1000)] is NaN; these are the
    two ratios of the function that no test of the denominator guards. *)
Theorem no_movement_divides_by_zero {M : MathLib} :
  exists r m,
    analyzeMovement (Some still_path) Options.empty = Normal r
    /\ Result.verified r = false
    /\ Result.duration r = Some 0%float
    /\ (0 / 1000 =? 0)%float = true
    /\ Result.metrics r = Some m
    /\ Metrics.pointsPerSecond m = (Js.ofZ 20 / (0 / 1000))%float
    /\ Metrics.pointsPerSecond m = infinity
    /\ Metrics.velocityPeaksPerSecond m = (Js.ofZ 0 / (0 / 1000))%float
    /\ is_nan (Metrics.velocityPeaksPerSecond m) = true.
Proof.
  assert (Hlen : (15 <= len still_path)%Z) by (vm_compute; discriminate).
  destruct (analyzeMovement_returns (Some still_path) Options.empty)
    as [r Hr].
  destruct (analyzeMovement_no_movement (mkPoint 100 200 1000) Options.empty)
    as (r' & Hr' & Hverified).
  change (repeat (mkPoint 100 200 1000) 20) with still_path in Hr'.
  rewrite Hr in Hr'. injection Hr' as <-.
  destruct (analyzeMovement_inv _ _ Hlen Hr)
    as (dur & pc & lpc & gaps & sr & m & vs & Hdur & _ & _ & _ & Hvs
        & Hmetrics & _ & Hduration & Hpps & Hvpps & _).
  assert (Hzero : duration still_path = Normal 0%float)
    by (vm_compute; reflexivity).
  assert (Hnone : velocities still_path = Normal [])
    by (vm_compute; reflexivity).
  rewrite Hzero in Hdur. injection Hdur as <-.
  rewrite Hnone in Hvs. injection Hvs as <-.
  exists r, m. rewrite Hpps, Hvpps.
  repeat split; try assumption; reflexivity.
Qed.

(* ================================================================== *)
(** ** The straightness sub-test *)




Section StraightnessProofs.

Context {M : MathLib}.




End StraightnessProofs.

(* ================================================================== *)
(** ** The [notRobotic] check *)



(** The straight line of Scenario A: every evaluated window is too
    straight, [notRobotic] fails, the movement is not verified and is
    flagged as automated. *)
Example straight_line_is_robotic :
  straightFraction (M := RefMath.math) line_path = 1%float
  /\ exists r,
      analyzeMovement (M := RefMath.math) (Some line_path) six_hits = Normal r
      /\ Checks.notRobotic (Result.checks r) = false
      /\ Result.verified r = false
      /\ Result.aiDetected r = true.
Proof.
  split; [vm_compute; reflexivity|].
  destruct (analyzeMovement (M := RefMath.math) (Some line_path) six_hits)
    as [r|e] eqn:E; vm_compute in E; [|discriminate E].
  exists r. injection E as <-. repeat split; reflexivity.
Qed.

(** The hand-like movement of Scenario C with six hits: all seven checks
    pass, and [POST /api/verify] answers with a signature and the session
    id made of its first 16 characters. *)
Example human_movement_is_verified :
  Result.verified human_result = true
  /\ Result.checksPassed human_result = 7%Z
  /\ Result.aiDetected human_result = false
  /\ exists timestamp checks checksPassed metrics,
      fst human_response
      = Verified issued_signature issued_id timestamp checks checksPassed
          metrics
      /\ issued_id = substring 0 16 issued_signature.
Proof. repeat split. do 4 eexists. split; reflexivity. Qed.

(** On numbers, not below and at least are the same; they differ only
    when one side is NaN. *)
Lemma SFcompare_antisym (u v : spec_float) (c : comparison) :
  SFcompare u v = Some c -> SFcompare v u = Some (CompOpp c).
Proof.
  destruct u as [su|su| |su mu eu], v as [sv|sv| |sv mv ev]; simpl;
    try discriminate;
    try (intros [= <-]; try destruct su; try destruct sv; reflexivity).
  intros [= <-]. f_equal.
  destruct su, sv; try reflexivity.
  - rewrite (Z.compare_antisym eu ev).
    destruct (eu ?= ev)%Z; try reflexivity. simpl.
    now rewrite (Pos.compare_cont_antisym mu mv Eq).
  - rewrite (Z.compare_antisym eu ev).
    destruct (eu ?= ev)%Z; try reflexivity. simpl.
    now rewrite (Pos.compare_cont_antisym mu mv Eq).
Qed.

Lemma not_below_iff_at_least (a b : float) :
  is_nan a = false -> is_nan b = false ->
  ((a <? b)%float = false <-> (b <=? a)%float = true).
Proof.
  unfold is_nan.
  rewrite !FloatAxioms.eqb_spec, FloatAxioms.ltb_spec, FloatAxioms.leb_spec,
    !negb_false_iff.
  unfold SFeqb, SFltb, SFleb. intros Ha Hb.
  destruct (SFcompare (Prim2SF a) (Prim2SF b)) as [c|] eqn:E.
  - rewrite (SFcompare_antisym _ _ E). destruct c; simpl; intuition congruence.
  - destruct (Prim2SF a) as [| | |], (Prim2SF b) as [| | |];
      simpl in *; discriminate.
Qed.

(* ================================================================== *)
(** ** Signing and verifying *)

Lemma len_Buffer_from (s : string) :
  len (Buffer_from s) = Z.of_nat (String.length s).
Proof.
  unfold len, Buffer_from. f_equal.
  induction s as [|c s IH]; simpl; [reflexivity|now rewrite IH].
Qed.

Lemma Buffer_from_inj (a b : string) :
  Buffer_from a = Buffer_from b -> a = b.
Proof.
  unfold Buffer_from. intros H.
  rewrite <- (string_of_list_ascii_of_string a),
          <- (string_of_list_ascii_of_string b).
  now rewrite H.
Qed.

Section AttestationProofs.

Context {N : Node}.

Lemma verifySignature_length_mismatch (secretKey signature payload : string) :
  String.length signature <> 64%nat ->
  verifySignature secretKey signature payload = Throw RangeError.
Proof.
  intros Hlen. unfold verifySignature, timingSafeEqual.
  rewrite !len_Buffer_from, hmac_sha256_hex_length.
  destruct (Z.eqb_spec (Z.of_nat (String.length signature)) (Z.of_nat 64));
    [lia|reflexivity].
Qed.

Lemma verifySignature_equal_length (secretKey signature payload : string) :
  String.length signature = 64%nat ->
  verifySignature secretKey signature payload
  = Normal (String.eqb signature (hmac_sha256_hex secretKey payload)).
Proof.
  intros Hlen. unfold verifySignature, timingSafeEqual.
  rewrite !len_Buffer_from, hmac_sha256_hex_length, Hlen, Z.eqb_refl.
  f_equal.
  destruct (list_eq_dec ascii_dec _ _) as [Heq|Hneq];
    destruct (String.eqb_spec signature (hmac_sha256_hex secretKey payload))
      as [Hs|Hs]; try reflexivity.
  - apply Buffer_from_inj in Heq. contradiction.
  - subst signature. contradiction.
Qed.

(** C3 at a three-character signature: the function raises instead of
    returning [false]. *)
Theorem verifySignature_short_signature_throws (secretKey payload : string) :
  verifySignature secretKey "abc" payload = Throw RangeError.
Proof. apply verifySignature_length_mismatch. simpl. lia. Qed.

(** The deterministic parts of the signing round trip. *)
Lemma generateSignature_verifies (secretKey : string) (data : SignData.t)
      (now : Z) :
  verifySignature secretKey
    (Signed.signature (generateSignature secretKey data now))
    (Signed.payload (generateSignature secretKey data now))
  = Normal true.
Proof.
  unfold generateSignature. cbn [Signed.signature Signed.payload].
  rewrite verifySignature_equal_length by apply hmac_sha256_hex_length.
  now rewrite String.eqb_refl.
Qed.

Lemma changed_signature_rejected (secretKey : string) (data : SignData.t)
      (now : Z) (signature : string) :
  signature <> Signed.signature (generateSignature secretKey data now) ->
  String.length signature = 64%nat ->
  verifySignature secretKey signature
    (Signed.payload (generateSignature secretKey data now))
  = Normal false.
Proof.
  intros Hneq Hlen.
  rewrite verifySignature_equal_length by exact Hlen.
  f_equal. apply String.eqb_neq. exact Hneq.
Qed.

Lemma changed_payload_verifies_iff_same_mac (secretKey : string)
      (data : SignData.t) (now : Z) (payload : string) :
  verifySignature secretKey
    (Signed.signature (generateSignature secretKey data now)) payload
  = Normal true
  <-> hmac_sha256_hex secretKey payload
      = hmac_sha256_hex secretKey
          (Signed.payload (generateSignature secretKey data now)).
Proof.
  rewrite verifySignature_equal_length by apply hmac_sha256_hex_length.
  unfold generateSignature. cbn [Signed.signature Signed.payload].
  split.
  - intros [= H]. apply String.eqb_eq in H. now symmetry.
  - intros H. f_equal. apply String.eqb_eq. now symmetry.
Qed.

End AttestationProofs.

(* ================================================================== *)
(** ** The session registry *)

Lemma Map_get_set_same (m : Sessions) (key : string) (v : Session.t) :
  Map_get (Map_set m key v) key = Some v.
Proof.
  induction m as [|[k v'] m IH]; simpl.
  - now rewrite String.eqb_refl.
  - destruct (String.eqb_spec k key) as [->|Hneq]; simpl.
    + now rewrite String.eqb_refl.
    + apply String.eqb_neq in Hneq. now rewrite Hneq.
Qed.

Lemma Map_get_delete_same (m : Sessions) (key : string) :
  Map_get (Map_delete m key) key = None.
Proof.
  induction m as [|[k v] m IH]; simpl; [reflexivity|].
  destruct (String.eqb_spec k key) as [->|Hneq]; simpl; [exact IH|].
  apply String.eqb_neq in Hneq. now rewrite Hneq.
Qed.

Lemma Map_get_delete_other (m : Sessions) (key key' : string) :
  key' <> key -> Map_get (Map_delete m key') key = Map_get m key.
Proof.
  intros Hneq.
  induction m as [|[k v] m IH]; simpl; [reflexivity|].
  destruct (String.eqb_spec k key') as [->|Hk]; simpl.
  - apply String.eqb_neq in Hneq. now rewrite Hneq.
  - now rewrite IH.
Qed.

Lemma Map_set_keys (m : Sessions) (key k : string) (v : Session.t) :
  In k (map fst (Map_set m key v)) -> k = key \/ In k (map fst m).
Proof.
  induction m as [|[k' v'] m IH]; simpl.
  - intros [<-|[]]. now left.
  - destruct (String.eqb_spec k' key) as [->|Hneq]; simpl.
    + intros [<-|H]; auto.
    + intros [<-|H]; auto. destruct (IH H); auto.
Qed.

Lemma Map_set_ok (m : Sessions) (key : string) (v : Session.t) :
  registry_ok m -> registry_ok (Map_set m key v).
Proof.
  unfold registry_ok.
  induction m as [|[k v'] m IH]; simpl; intros Hok.
  - constructor; [intros []|constructor].
  - inversion Hok as [|? ? Hnotin Hrest]; subst.
    destruct (String.eqb_spec k key) as [->|Hneq]; simpl.
    + now constructor.
    + constructor; [|now apply IH].
      intros Hin. destruct (Map_set_keys _ _ _ _ Hin); [congruence|auto].
Qed.

Lemma Map_delete_ok (m : Sessions) (key : string) :
  registry_ok m -> registry_ok (Map_delete m key).
Proof.
  unfold registry_ok, Map_delete.
  induction m as [|[k v] m IH]; simpl; intros Hok; [constructor|].
  inversion Hok as [|? ? Hnotin Hrest]; subst.
  destruct (negb (String.eqb k key)); simpl; [|now apply IH].
  constructor; [|now apply IH].
  intros Hin. apply Hnotin.
  apply in_map_iff in Hin. destruct Hin as ([k' v'] & <- & Hin).
  apply filter_In in Hin. apply in_map_iff. exists (k', v'). tauto.
Qed.

Lemma registry_get_In (m : Sessions) (key : string) (v v' : Session.t) :
  registry_ok m -> In (key, v') m -> Map_get m key = Some v -> v' = v.
Proof.
  unfold registry_ok.
  induction m as [|[k w] m IH]; simpl; intros Hok Hin Hget; [contradiction|].
  inversion Hok as [|? ? Hnotin Hrest]; subst.
  destruct (String.eqb_spec k key) as [->|Hneq].
  - injection Hget as <-. destruct Hin as [[= <-]|Hin]; [reflexivity|].
    exfalso. apply Hnotin. apply in_map_iff. now exists (key, v').
  - destruct Hin as [[= -> _]|Hin]; [contradiction|]. now apply IH.
Qed.

Section RegistryProofs.

Context {M : MathLib} {N : Node}.

Variable clock : Clock.
Variable SECRET_KEY : string.

(** The sweep keeps a session that no reading of the clock finds expired,
    and reads the clock once per entry. *)
Lemma sweep_keeps (key : string) (v : Session.t)
      (entries : list (string * Session.t)) :
  forall s,
    (forall v', In (key, v') entries -> v' = v) ->
    Map_get (Server.verifiedSessions s) key = Some v ->
    (forall j,
        (Server.ticks s <= j < Server.ticks s + List.length entries)%nat ->
        (clock j <= Session.expiresAt v)%Z) ->
    Map_get (Server.verifiedSessions (fold_left (sweep_step clock) entries s))
      key = Some v
    /\ Server.ticks (fold_left (sweep_step clock) entries s)
       = (Server.ticks s + List.length entries)%nat.
Proof.
  induction entries as [|[k w] entries IH]; intros s Hsame Hget Hclock.
  - simpl. split; [exact Hget|lia].
  - cbn [fold_left List.length].
    assert (Hstep : Map_get (Server.verifiedSessions
                               (sweep_step clock s (k, w))) key = Some v
                    /\ Server.ticks (sweep_step clock s (k, w))
                       = S (Server.ticks s)).
    { unfold sweep_step, Date_now, with_sessions. cbn [fst snd].
      destruct (Z.ltb_spec (Session.expiresAt w) (clock (Server.ticks s)))
        as [Hexpired|Hfresh];
        cbn [Server.verifiedSessions Server.ticks]; [|now split].
      split; [|reflexivity].
      rewrite Map_get_delete_other; [exact Hget|].
      intros ->.
      assert (w = v) by (apply Hsame; now left). subst w.
      specialize (Hclock (Server.ticks s)). simpl in Hclock. lia. }
    destruct Hstep as [Hget' Hticks'].
    destruct (IH (sweep_step clock s (k, w))) as [Hfinal Hticks].
    + intros v' Hin. apply Hsame. now right.
    + exact Hget'.
    + intros j Hj. apply Hclock. simpl. lia.
    + split; [exact Hfinal|]. rewrite Hticks, Hticks'. lia.
Qed.

Lemma sweep_ticks (entries : list (string * Session.t)) :
  forall s,
    Server.ticks (fold_left (sweep_step clock) entries s)
    = (Server.ticks s + List.length entries)%nat.
Proof.
  induction entries as [|kv entries IH]; intros s; cbn [fold_left List.length].
  - lia.
  - rewrite IH. unfold sweep_step, Date_now, with_sessions.
    destruct (Z.ltb _ _); cbn [Server.ticks]; lia.
Qed.

Lemma cleanExpired_keeps (key : string) (v : Session.t) (s : Server.t) :
  registry_ok (Server.verifiedSessions s) ->
  Map_get (Server.verifiedSessions s) key = Some v ->
  (forall j, (j < Server.ticks (cleanExpired clock s))%nat ->
             (clock j <= Session.expiresAt v)%Z) ->
  Map_get (Server.verifiedSessions (cleanExpired clock s)) key = Some v.
Proof.
  intros Hok Hget Hclock.
  unfold cleanExpired in *. rewrite sweep_ticks in Hclock.
  apply sweep_keeps.
  - intros v' Hin. now apply (registry_get_In _ _ Hok Hin).
  - exact Hget.
  - intros j Hj. apply Hclock. lia.
Qed.

Lemma length_substring_0 (n : nat) (str : string) :
  (n <= String.length str)%nat -> String.length (substring 0 n str) = n.
Proof.
  revert str. induction n as [|n IH]; intros str Hn.
  - destruct str; reflexivity.
  - destruct str as [|c str]; simpl in *; [lia|].
    rewrite IH by lia. reflexivity.
Qed.

(** What [POST /api/verify] leaves in the registry when it issues a
    session. *)
Lemma issueSession_registers (points : list Point) (recordId : option string)
      (checksPassed : Z) (s0 : Server.t) :
  registry_ok (Server.verifiedSessions s0) ->
  forall sigData sessionId s,
    issueSession clock SECRET_KEY points recordId checksPassed s0
    = (sigData, sessionId, s) ->
    (forall k, (k <= Server.ticks s)%nat ->
               (clock k <= clock (S (Server.ticks s0)) + 3600000)%Z) ->
    String.length sessionId = 16%nat
    /\ String.length (Signed.signature sigData) = 64%nat
    /\ Map_get (Server.verifiedSessions s) sessionId
       = Some (Session.make (Signed.signature sigData)
                 (Signed.timestamp sigData) recordId
                 (clock (S (Server.ticks s0)) + 3600000)%Z).
Proof.
  intros Hok sigData sessionId s Hissue Hclock.
  unfold issueSession, Date_now in Hissue.
  cbn [Server.verifiedSessions Server.ticks] in Hissue.
  injection Hissue as <- <- <-.
  split;
    [apply length_substring_0; rewrite hmac_sha256_hex_length; lia|].
  split; [apply hmac_sha256_hex_length|].
  apply cleanExpired_keeps.
  - apply Map_set_ok. exact Hok.
  - apply Map_get_set_same.
  - intros j Hj. cbn [Session.expiresAt]. apply Hclock. lia.
Qed.


End RegistryProofs.

(** C8: re-verification of a session.  With a session id and a signature
    both present in the request:
    - no entry for the id: [valid = false], [reason = 'session_not_found'];
    - an entry whose [expiresAt] is before the clock: [valid = false],
      [reason = 'session_expired'], and the entry is removed;
    - otherwise [valid] says whether the stored signature equals the
      supplied one, and the stored [recordId] (and timestamp) are returned
      when it does;
    - after [POST /api/verify] has answered with a signature and a session
      id, and while no reading of the clock is more than the TTL past the
      issuance, looking that pair up gives [valid = true] with the
      [recordId] of the request. *)
Theorem session_lookup
        {M : MathLib} {N : Node} (clock : Clock) (SECRET_KEY : string)
        (s : Server.t) (sessionId signature : string) :
  sessionId <> EmptyString ->
  signature <> EmptyString ->
  let body := LookupBody.make (Some sessionId) (Some signature) in
  (Map_get (Server.verifiedSessions s) sessionId = None ->
   verifySignatureRoute clock body s
   = (Lookup false (Some "session_not_found"%string) None None, s))
  /\ (forall session,
         Map_get (Server.verifiedSessions s) sessionId = Some session ->
         (Session.expiresAt session < clock (Server.ticks s))%Z ->
         exists s',
           verifySignatureRoute clock body s
           = (Lookup false (Some "session_expired"%string) None None, s')
           /\ Server.verifiedSessions s'
              = Map_delete (Server.verifiedSessions s) sessionId
           /\ Map_get (Server.verifiedSessions s') sessionId = None)
  /\ (forall session,
         Map_get (Server.verifiedSessions s) sessionId = Some session ->
         (clock (Server.ticks s) <= Session.expiresAt session)%Z ->
         let valid := String.eqb (Session.signature session) signature in
         exists s',
           verifySignatureRoute clock body s
           = (Lookup valid None
                (if valid then Session.recordId session else None)
                (if valid then Some (Session.timestamp session) else None),
              s')
           /\ Server.verifiedSessions s' = Server.verifiedSessions s)
  /\ (forall request s0 issuedSignature issuedId timestamp checks
             checksPassed metrics,
         registry_ok (Server.verifiedSessions s0) ->
         verifyRoute clock SECRET_KEY request s0
         = (Verified issuedSignature issuedId timestamp checks checksPassed
              metrics, s) ->
         (forall k, (k <= Server.ticks s)%nat ->
                    (clock k <= clock (S (Server.ticks s0)) + 3600000)%Z) ->
         exists s',
           verifySignatureRoute clock
             (LookupBody.make (Some issuedId) (Some issuedSignature)) s
           = (Lookup true None (VerifyBody.recordId request) (Some timestamp),
              s')
           /\ Server.verifiedSessions s' = Server.verifiedSessions s).
Proof.
  intros Hid Hsig body.
  apply String.eqb_neq in Hid. apply String.eqb_neq in Hsig.
  repeat split.
  - intros Hget. unfold verifySignatureRoute, body.
    cbn [LookupBody.sessionId LookupBody.signature].
    now rewrite Hid, Hsig, Hget.
  - intros session Hget Hexpired.
    eexists. unfold verifySignatureRoute, body.
    cbn [LookupBody.sessionId LookupBody.signature].
    rewrite Hid, Hsig, Hget. cbn [orb Date_now].
    destruct (Z.ltb_spec (Session.expiresAt session) (clock (Server.ticks s)));
      [|lia].
    split; [reflexivity|]. cbn. split; [reflexivity|].
    apply Map_get_delete_same.
  - intros session Hget Hfresh valid.
    eexists. unfold verifySignatureRoute, body.
    cbn [LookupBody.sessionId LookupBody.signature].
    rewrite Hid, Hsig, Hget. cbn [orb Date_now].
    destruct (Z.ltb_spec (Session.expiresAt session) (clock (Server.ticks s)));
      [lia|].
    split; reflexivity.
  - intros request s0 issuedSignature issuedId timestamp checks checksPassed
           metrics Hok Hissue Hclock.
    unfold verifyRoute in Hissue.
    destruct (VerifyBody.points request) as [points|]; [|discriminate].
    destruct (analyzeMovement _ _) as [result|]; [|discriminate].
    destruct (Result.verified result); [|discriminate].
    destruct (issueSession clock SECRET_KEY points (VerifyBody.recordId request)
                (Result.checksPassed result) s0)
      as [[sigData issuedId'] s1] eqn:Eissue.
    injection Hissue as <- <- <- _ _ _ <-.
    destruct (issueSession_registers Hok Eissue Hclock)
      as (Hidlen & Hsiglen & Hget).
    eexists. unfold verifySignatureRoute.
    cbn [LookupBody.sessionId LookupBody.signature].
    assert (Hid' : String.eqb issuedId' EmptyString = false)
      by (apply String.eqb_neq; intros ->; discriminate).
    assert (Hsig' : String.eqb (Signed.signature sigData) EmptyString = false)
      by (apply String.eqb_neq; intros E; rewrite E in Hsiglen; discriminate).
    rewrite Hid', Hsig', Hget. cbn [orb Date_now Session.expiresAt].
    destruct (Z.ltb_spec (clock (S (Server.ticks s0)) + 3600000)
                         (clock (Server.ticks s1))) as [Hexpired|_].
    { specialize (Hclock (Server.ticks s1)). lia. }
    cbn [Session.signature Session.recordId Session.timestamp].
    rewrite String.eqb_refl. split; reflexivity.
Qed.

Lemma session_lookup_witness :
  (issued_id <> EmptyString /\ issued_signature <> EmptyString)
  /\ verifySignatureRoute sample_clock
       (LookupBody.make (Some issued_id) (Some issued_signature)) fresh_server
     = (Lookup false (Some "session_not_found"%string) None None, fresh_server)
  /\ (exists s',
        verifySignatureRoute late_clock
          (LookupBody.make (Some issued_id) (Some issued_signature))
          issued_server
        = (Lookup false (Some "session_expired"%string) None None, s')
        /\ Server.verifiedSessions s'
           = Map_delete (Server.verifiedSessions issued_server) issued_id
        /\ Map_get (Server.verifiedSessions s') issued_id = None)
  /\ (exists s',
        verifySignatureRoute sample_clock
          (LookupBody.make (Some issued_id) (Some "0000"%string))
          issued_server
        = (Lookup false None None None, s')
        /\ Server.verifiedSessions s' = Server.verifiedSessions issued_server)
  /\ (exists s',
        verifySignatureRoute sample_clock
          (LookupBody.make (Some issued_id) (Some issued_signature))
          issued_server
        = (Lookup true None (VerifyBody.recordId human_request)
             (Some 1700000000000%Z), s')
        /\ Server.verifiedSessions s' = Server.verifiedSessions issued_server).
Proof.
  assert (Hid : issued_id <> EmptyString) by discriminate.
  assert (Hsig : issued_signature <> EmptyString) by discriminate.
  assert (Hwrong : "0000"%string <> EmptyString) by discriminate.
  split; [split; assumption|].
  split.
  { apply (session_lookup (M := RefMath.math) (N := StandIn.node)
             sample_clock sample_key fresh_server Hid Hsig).
    reflexivity. }
  split.
  { apply (proj1 (proj2 (session_lookup (M := RefMath.math)
                           (N := StandIn.node) late_clock sample_key
                           issued_server Hid Hsig))
             issued_session).
    - reflexivity.
    - vm_compute; reflexivity. }
  split.
  { apply (proj1 (proj2 (proj2 (session_lookup (M := RefMath.math)
                                  (N := StandIn.node) sample_clock sample_key
                                  issued_server Hid Hwrong)))
             issued_session).
    - reflexivity.
    - vm_compute; discriminate. }
  apply (proj2 (proj2 (proj2 (session_lookup (M := RefMath.math)
                                (N := StandIn.node) sample_clock sample_key
                                issued_server Hid Hsig)))
           human_request fresh_server issued_signature issued_id
           1700000000000%Z
           (Checks.make true true true true true true) 7%Z
           (Result.metrics human_result)).
  - constructor.
  - vm_compute; reflexivity.
  - intros k Hk. change (Server.ticks issued_server) with 3%nat in Hk.
    unfold sample_clock. change (Server.ticks fresh_server) with 0%nat. lia.
Defined.

(** The two routes keep the registry a [Map]: starting from the empty
    registry, every state the server reaches has no key twice. *)
Section RegistryInvariant.

Context {M : MathLib} {N : Node}.

Variable clock : Clock.
Variable SECRET_KEY : string.

Lemma sweep_ok (entries : list (string * Session.t)) :
  forall s,
    registry_ok (Server.verifiedSessions s) ->
    registry_ok (Server.verifiedSessions
                   (fold_left (sweep_step clock) entries s)).
Proof.
  induction entries as [|kv entries IH]; intros s Hok; cbn [fold_left].
  - exact Hok.
  - apply IH. unfold sweep_step, Date_now, with_sessions.
    destruct (Z.ltb _ _); cbn [Server.verifiedSessions]; [|exact Hok].
    now apply Map_delete_ok.
Qed.

Lemma verifyRoute_ok (request : VerifyBody.t) (s : Server.t) :
  registry_ok (Server.verifiedSessions s) ->
  registry_ok (Server.verifiedSessions
                 (snd (verifyRoute clock SECRET_KEY request s))).
Proof.
  intros Hok. unfold verifyRoute.
  destruct (VerifyBody.points request) as [points|]; [|exact Hok].
  destruct (analyzeMovement _ _) as [result|]; [|exact Hok].
  destruct (Result.verified result); [|exact Hok].
  unfold issueSession, Date_now, cleanExpired, with_sessions.
  cbn [snd Server.verifiedSessions Server.ticks].
  apply sweep_ok. cbn [Server.verifiedSessions]. now apply Map_set_ok.
Qed.

Lemma verifySignatureRoute_ok (body : LookupBody.t) (s : Server.t) :
  registry_ok (Server.verifiedSessions s) ->
  registry_ok (Server.verifiedSessions
                 (snd (verifySignatureRoute clock body s))).
Proof.
  intros Hok. unfold verifySignatureRoute.
  destruct (LookupBody.sessionId body) as [sessionId|]; [|exact Hok].
  destruct (LookupBody.signature body) as [signature|]; [|exact Hok].
  destruct (_ || _); [exact Hok|].
  destruct (Map_get _ _) as [session|]; [|exact Hok].
  unfold Date_now, with_sessions.
  destruct (Z.ltb _ _); cbn [snd Server.verifiedSessions]; [|exact Hok].
  now apply Map_delete_ok.
Qed.

End RegistryInvariant.
